(** * OCR Master: the selection / extraction core of [src/app/page.tsx]

    A shallow embedding of the [OCRTool] component: its React state, its
    event handlers and the small amount of rectangle arithmetic they do.

    Conventions of the embedding.
    - A JavaScript [number] is an exact rational ([Q]).  The handlers only
      add, subtract, multiply, divide, compare and take absolute values;
      IEEE-754 rounding, [NaN] and the infinities are outside the model, and
      divisors that the code never guards ([rect.width], [zoom]) are
      non-zero in every statement that depends on them.
    - An integer-valued number that indexes an array ([currentPage]) is a [Z].
    - [canvas.width] and [canvas.height] are WebIDL [unsigned long]
      attributes: assigning a number converts it as the platform does.
    - A handler is a function from the state (and what it reads from the
      DOM or receives from an awaited promise) to the new state and the list
      of effects it performs (toasts, console output, the recognition call).
    - An [async] handler is split at its [await]: a [_start] part that runs
      synchronously with the event and a [_settled] part that runs when the
      awaited promise resolves or rejects. *)

From Stdlib Require Import ZArith QArith Qabs Qminmax Qround Lqa Lia.
From Stdlib Require Import List String Ascii Bool DecimalString.
Import ListNotations.

Local Open Scope Q_scope.

(* ------------------------------------------------------------------ *)
(** * The JavaScript and DOM primitives the page uses                  *)
(* ------------------------------------------------------------------ *)

Module JS.

(** [Math.min], [Math.max], [Math.abs] on numbers. *)
Definition Math_min (a b : Q) : Q := Qmin a b.
Definition Math_max (a b : Q) : Q := Qmax a b.
Definition Math_abs (a : Q) : Q := Qabs a.

(** [Math.round]: the nearest integer, halves going up. *)
Definition Math_round (a : Q) : Z := Qfloor (a + (1 # 2)).

(** [Math.min] and [Math.max] on integer-valued numbers. *)
Definition Math_minZ (a b : Z) : Z := Z.min a b.
Definition Math_maxZ (a b : Z) : Z := Z.max a b.

(** The integer part of a number (rounding towards zero), the first step
    of every WebIDL integer conversion. *)
Definition IntegerPart (a : Q) : Z := Z.quot (Qnum a) (Z.pos (Qden a)).

(** WebIDL conversion of a number to [unsigned long]. *)
Definition ToUint32 (a : Q) : Z := (IntegerPart a mod 2 ^ 32)%Z.

(** Setter of a reflected [unsigned long] attribute such as
    [canvas.width]: values above 2^31 - 1 fall back to the default. *)
Definition set_unsigned_long (default : Z) (a : Q) : Z :=
  let n := ToUint32 a in
  if (n <=? 2147483647)%Z then n else default.

(** [String.prototype.startsWith] on ASCII strings (MIME types). *)
Definition startsWith (s p : string) : bool := String.prefix p s.

(** A text (recognised or typed) is a sequence of UTF-16 code units. *)
Definition Text := list N.

(** White space and line terminators removed by [String.prototype.trim]. *)
Definition isWhiteSpace (c : N) : bool :=
  ((9 <=? c) && (c <=? 13) || (c =? 32) || (c =? 160) || (c =? 5760)
   || (8192 <=? c) && (c <=? 8202) || (c =? 8232) || (c =? 8233)
   || (c =? 8239) || (c =? 8287) || (c =? 12288) || (c =? 65279))%N.

Fixpoint trimStart (t : Text) : Text :=
  match t with
  | c :: t' => if isWhiteSpace c then trimStart t' else t
  | [] => []
  end.

Definition trimEnd (t : Text) : Text := rev (trimStart (rev t)).

Definition trim (t : Text) : Text := trimEnd (trimStart t).

(** Template-literal rendering of a non-negative integer. *)
Definition showNat (n : nat) : string :=
  NilZero.string_of_uint (Nat.to_uint n).

End JS.

(* ------------------------------------------------------------------ *)
(** * Data model                                                       *)
(* ------------------------------------------------------------------ *)

(** [interface Selection] *)
Record Selection := mkSelection {
  x : Q;
  y : Q;
  width : Q;
  height : Q
}.

(** The part of an [HTMLCanvasElement] the page reads: its intrinsic size. *)
Record Canvas := mkCanvas {
  cwidth : Z;
  cheight : Z
}.

(** [interface PDFPage] *)
Record PDFPage := mkPage {
  canvas : Canvas;
  pageNumber : Z
}.

(** The part of a [File] the page reads. *)
Record File := mkFile {
  name : string;
  type : string
}.

(** The [useState] cells of [OCRTool]. *)
Record State := mkState {
  pdfFile : option File;
  pdfPages : list PDFPage;
  currentPage : Z;
  zoom : Q;
  isProcessing : bool;
  selection : option Selection;
  isSelecting : bool;
  extractedText : JS.Text;
  ocrLanguage : string
}.

(** The initial values passed to [useState]. *)
Definition initialState : State :=
  {| pdfFile := None;
     pdfPages := [];
     currentPage := 0%Z;
     zoom := 1;
     isProcessing := false;
     selection := None;
     isSelecting := false;
     extractedText := [];
     ocrLanguage := "eng+ben" |}.

(** State setters, one per [useState] cell. *)
Definition setPdfFile (v : option File) (s : State) : State :=
  mkState v s.(pdfPages) s.(currentPage) s.(zoom) s.(isProcessing)
          s.(selection) s.(isSelecting) s.(extractedText) s.(ocrLanguage).
Definition setPdfPages (v : list PDFPage) (s : State) : State :=
  mkState s.(pdfFile) v s.(currentPage) s.(zoom) s.(isProcessing)
          s.(selection) s.(isSelecting) s.(extractedText) s.(ocrLanguage).
Definition setCurrentPage (v : Z) (s : State) : State :=
  mkState s.(pdfFile) s.(pdfPages) v s.(zoom) s.(isProcessing)
          s.(selection) s.(isSelecting) s.(extractedText) s.(ocrLanguage).
Definition setZoom (v : Q) (s : State) : State :=
  mkState s.(pdfFile) s.(pdfPages) s.(currentPage) v s.(isProcessing)
          s.(selection) s.(isSelecting) s.(extractedText) s.(ocrLanguage).
Definition setIsProcessing (v : bool) (s : State) : State :=
  mkState s.(pdfFile) s.(pdfPages) s.(currentPage) s.(zoom) v
          s.(selection) s.(isSelecting) s.(extractedText) s.(ocrLanguage).
Definition setSelection (v : option Selection) (s : State) : State :=
  mkState s.(pdfFile) s.(pdfPages) s.(currentPage) s.(zoom) s.(isProcessing)
          v s.(isSelecting) s.(extractedText) s.(ocrLanguage).
Definition setIsSelecting (v : bool) (s : State) : State :=
  mkState s.(pdfFile) s.(pdfPages) s.(currentPage) s.(zoom) s.(isProcessing)
          s.(selection) v s.(extractedText) s.(ocrLanguage).
Definition setExtractedText (v : JS.Text) (s : State) : State :=
  mkState s.(pdfFile) s.(pdfPages) s.(currentPage) s.(zoom) s.(isProcessing)
          s.(selection) s.(isSelecting) v s.(ocrLanguage).
Definition setOcrLanguage (v : string) (s : State) : State :=
  mkState s.(pdfFile) s.(pdfPages) s.(currentPage) s.(zoom) s.(isProcessing)
          s.(selection) s.(isSelecting) s.(extractedText) v.

(** [pdfPages[currentPage]]: [undefined] outside the array. *)
Definition pageAt (pages : list PDFPage) (i : Z) : option PDFPage :=
  if (i <? 0)%Z then None else nth_error pages (Z.to_nat i).

(** [canvasRef.current]: the display canvas is mounted exactly when
    [pdfPages.length > 0] (the File Viewer renders a placeholder
    otherwise). *)
Definition canvasMounted (s : State) : bool :=
  match s.(pdfPages) with [] => false | _ :: _ => true end.

(* ------------------------------------------------------------------ *)
(** * Effects                                                          *)
(* ------------------------------------------------------------------ *)

Inductive Variant := VDefault | VDestructive.

(** The argument of [toast]. *)
Record Toast := mkToast {
  title : string;
  description : string;
  variant : Variant
}.

(** A call [ctx.drawImage(image, sx, sy, sw, sh, dx, dy, dw, dh)]. *)
Record DrawImage := mkDraw {
  image : Canvas;
  sx : Q; sy : Q; sw : Q; sh : Q;
  dx : Q; dy : Q; dw : Q; dh : Q
}.

(** The temporary canvas handed to the recognition service: its intrinsic
    size and the single [drawImage] call made on its context. *)
Record TempCanvas := mkTemp {
  twidth : Z;
  theight : Z;
  drawn : DrawImage
}.

Inductive Effect :=
| EToast (t : Toast)
| EConsoleError (msg : string)
| ERecognize (c : TempCanvas) (lang : string)   (* [Tesseract.recognize] *)
| EClipboardWrite (t : JS.Text).               (* [clipboard.writeText] *)

(** Whether an effect is a call of the recognition service. *)
Definition isRecognize (e : Effect) : bool :=
  match e with ERecognize _ _ => true | _ => false end.

(** Whether an effect is a user-visible notification. *)
Definition isToast (e : Effect) : bool :=
  match e with EToast _ => true | _ => false end.

(* ------------------------------------------------------------------ *)
(** * File upload ([handleFileUpload])                                 *)
(* ------------------------------------------------------------------ *)

Definition isImage (file : File) : bool := JS.startsWith file.(type) "image/".
Definition isPDF (file : File) : bool := String.eqb file.(type) "application/pdf".

Definition invalidFileToast : Toast :=
  mkToast "Invalid file" "Please upload a PDF, JPG, or PNG file." VDestructive.

Definition processErrorToast : Toast :=
  mkToast "Error" "Failed to process file." VDestructive.

(** What an upload is waiting for. *)
Inductive Upload := UImage | UPdf.

(** The synchronous part, up to the first [await].  The third component
    tells which promise the handler is now suspended on, if any. *)
Definition handleFileUpload_start (files : option File) (s : State)
  : State * list Effect * option Upload :=
  match files with
  | None => (s, [], None)
  | Some file =>
      if negb (isImage file) && negb (isPDF file) then
        (s, [EToast invalidFileToast], None)
      else
        (setIsProcessing true (setPdfFile (Some file) s), [],
         Some (if isImage file then UImage else UPdf))
  end.

(** The [catch] and [finally] blocks of [handleFileUpload]. *)
Definition handleFileUpload_catch (s : State) : State * list Effect :=
  (setIsProcessing false s,
   [EConsoleError "Error processing file:"; EToast processErrorToast]).

(** Image branch after the image has loaded ([Some (img.width, img.height)])
    or failed to load ([None]). *)
Definition handleFileUpload_image (loaded : option (Z * Z)) (s : State)
  : State * list Effect :=
  match loaded with
  | Some (w, h) =>
      let canvas := mkCanvas (JS.set_unsigned_long 300 (inject_Z w))
                             (JS.set_unsigned_long 150 (inject_Z h)) in
      (setIsProcessing false
         (setCurrentPage 0 (setPdfPages [mkPage canvas 1] s)),
       [EToast (mkToast "Image loaded successfully"
                        "Ready for text extraction" VDefault)])
  | None => handleFileUpload_catch s
  end.

(** The [for] loop over the pages of a PDF.  Each entry is the viewport
    (width, height) of a page rendered at scale 2, or [None] when getting or
    rendering that page rejects; the pages collected so far are then
    dropped with the local array. *)
Fixpoint renderPages (viewports : list (option (Q * Q))) (i : Z)
                     (pages : list PDFPage) : option (list PDFPage) :=
  match viewports with
  | [] => Some pages
  | None :: _ => None
  | Some (vw, vh) :: rest =>
      let canvas := mkCanvas (JS.set_unsigned_long 300 vw)
                             (JS.set_unsigned_long 150 vh) in
      renderPages rest (i + 1) (pages ++ [mkPage canvas i])
  end.

(** PDF branch: [None] when loading the library or the document rejects,
    otherwise the per-page outcomes. *)
Definition handleFileUpload_pdf (doc : option (list (option (Q * Q))))
                                (s : State) : State * list Effect :=
  match doc with
  | None => handleFileUpload_catch s
  | Some viewports =>
      match renderPages viewports 1 [] with
      | None => handleFileUpload_catch s
      | Some pages =>
          (setIsProcessing false (setCurrentPage 0 (setPdfPages pages s)),
           [EToast (mkToast "PDF loaded successfully"
                      (JS.showNat (List.length pages) ++ " pages processed")%string
                      VDefault)])
      end
  end.

(* ------------------------------------------------------------------ *)
(** * Viewport rendering ([drawCurrentPage])                           *)
(* ------------------------------------------------------------------ *)

(** [ctx.scale(kx, ky)] followed by a draw at the origin: where a point of
    the drawn image lands on the canvas. *)
Definition ctx_scale (kx ky : Q) (p : Q * Q) : Q * Q :=
  (fst p * kx, snd p * ky).

(** What one run of [drawCurrentPage] leaves on the display canvas. *)
Record Painted := mkPainted {
  displayCanvas : Canvas;          (* [canvas.width], [canvas.height] *)
  scale : Q * Q;                   (* arguments of [ctx.scale] *)
  source : PDFPage;                (* page drawn at the origin *)
  overlay : option Selection       (* rectangle stroked and filled *)
}.

Definition drawCurrentPage (s : State) : option Painted :=
  if negb (canvasMounted s) then None else
  match pageAt s.(pdfPages) s.(currentPage) with
  | None => None
  | Some sourcePage =>
      Some {| displayCanvas :=
                mkCanvas
                  (JS.set_unsigned_long 300
                     (inject_Z sourcePage.(canvas).(cwidth) * s.(zoom)))
                  (JS.set_unsigned_long 150
                     (inject_Z sourcePage.(canvas).(cheight) * s.(zoom)));
              scale := (s.(zoom), s.(zoom));
              source := sourcePage;
              overlay := s.(selection) |}
  end.

(** Where the renderer puts a point of the page. *)
Definition toDisplay (p : Painted) (pt : Q * Q) : Q * Q :=
  ctx_scale (fst p.(scale)) (snd p.(scale)) pt.

(* ------------------------------------------------------------------ *)
(** * Selection tracking ([handleMouseDown])                           *)
(* ------------------------------------------------------------------ *)

(** [getBoundingClientRect()] of the display canvas. *)
Record DOMRect := mkRect {
  left : Q;
  top : Q;
  rwidth : Q;
  rheight : Q
}.

(** A mouse event together with what the handler reads from the display
    canvas while handling it. *)
Record MouseEvt := mkMouse {
  clientX : Q;
  clientY : Q;
  canvasSize : Canvas;
  rect : DOMRect
}.

(** Coordinates of the event in canvas pixels. *)
Definition canvasX (e : MouseEvt) : Q :=
  let scaleX := inject_Z e.(canvasSize).(cwidth) / e.(rect).(rwidth) in
  (e.(clientX) - e.(rect).(left)) * scaleX.

Definition canvasY (e : MouseEvt) : Q :=
  let scaleY := inject_Z e.(canvasSize).(cheight) / e.(rect).(rheight) in
  (e.(clientY) - e.(rect).(top)) * scaleY.

(** The closure pair ([handleMouseMove], [handleMouseUp]) registered on the
    document by one mouse-down: it captures the anchor of the drag. *)
Record Drag := mkDrag {
  anchorX : Q;
  anchorY : Q
}.

(** [handleMouseDown]; [selecting] is the [isSelecting] its closure
    captured.  Returns the listeners it registers. *)
Definition handleMouseDown (selecting : bool) (event : MouseEvt) (s : State)
  : State * list Drag :=
  if negb selecting || negb (canvasMounted s) then (s, []) else
  let x := canvasX event in
  let y := canvasY event in
  (setSelection (Some (mkSelection x y 0 0)) s, [mkDrag x y]).

(** The inner [handleMouseMove] of a drag. *)
Definition handleMouseMove (d : Drag) (e : MouseEvt) (s : State) : State :=
  let currentX := canvasX e in
  let currentY := canvasY e in
  setSelection
    (Some {| x := JS.Math_min d.(anchorX) currentX;
             y := JS.Math_min d.(anchorY) currentY;
             width := JS.Math_abs (currentX - d.(anchorX));
             height := JS.Math_abs (currentY - d.(anchorY)) |}) s.

(** The inner [handleMouseUp] of a drag (its listeners are removed by the
    caller of this function, see [handle]). *)
Definition handleMouseUp (s : State) : State := setIsSelecting false s.

(* ------------------------------------------------------------------ *)
(** * Region extraction ([performOCR])                                 *)
(* ------------------------------------------------------------------ *)

(** The state [performOCR] reads: the dependency list of its
    [useCallback], which is also what its closure captures. *)
Record OCRDeps := mkDeps {
  d_selection : option Selection;
  d_pdfPages : list PDFPage;
  d_currentPage : Z;
  d_ocrLanguage : string;
  d_zoom : Q
}.

Definition ocrDeps (s : State) : OCRDeps :=
  mkDeps s.(selection) s.(pdfPages) s.(currentPage) s.(ocrLanguage) s.(zoom).

(** The crop: lines 259-272. *)
Definition extractRegion (sel : Selection) (zoom : Q) (sourcePage : PDFPage)
  : TempCanvas :=
  let sourceX := sel.(x) / zoom in
  let sourceY := sel.(y) / zoom in
  let sourceWidth := sel.(width) / zoom in
  let sourceHeight := sel.(height) / zoom in
  {| twidth := JS.set_unsigned_long 300 sourceWidth;
     theight := JS.set_unsigned_long 150 sourceHeight;
     drawn := mkDraw sourcePage.(canvas)
                     sourceX sourceY sourceWidth sourceHeight
                     0 0 sourceWidth sourceHeight |}.

(** [performOCR] up to its [await]; the boolean tells whether a recognition
    call is now outstanding. *)
Definition performOCR_start (env : OCRDeps) (s : State)
  : State * list Effect * bool :=
  match env.(d_selection), pageAt env.(d_pdfPages) env.(d_currentPage) with
  | Some sel, Some sourcePage =>
      (setIsProcessing true s,
       [ERecognize (extractRegion sel env.(d_zoom) sourcePage)
                   env.(d_ocrLanguage)],
       true)
  | _, _ => (s, [], false)
  end.

(** [performOCR] after the recognition promise settles: [Some text] when it
    resolves, [None] when it rejects. *)
Definition performOCR_settled (result : option JS.Text) (s : State)
  : State * list Effect :=
  match result with
  | Some text =>
      (setIsProcessing false (setExtractedText (JS.trim text) s),
       [EToast (mkToast "OCR completed" "Text extracted successfully"
                        VDefault)])
  | None =>
      (setIsProcessing false s,
       [EConsoleError "OCR Error:";
        EToast (mkToast "OCR failed"
                  "Failed to extract text from selection." VDestructive)])
  end.

(* ------------------------------------------------------------------ *)
(** * Clipboard ([copyToClipboard])                                    *)
(* ------------------------------------------------------------------ *)

Definition copyToClipboard_start (s : State) : list Effect * bool :=
  match s.(extractedText) with
  | [] => ([], false)
  | _ :: _ => ([EClipboardWrite s.(extractedText)], true)
  end.

Definition copyToClipboard_settled (ok : bool) : list Effect :=
  if ok then [EToast (mkToast "Copied!" "Text copied to clipboard" VDefault)]
  else [EToast (mkToast "Copy failed" "Failed to copy text to clipboard."
                        VDestructive)].

(* ------------------------------------------------------------------ *)
(** * The inline handlers of the controls                              *)
(* ------------------------------------------------------------------ *)

Definition onPrevious (s : State) : State :=
  setCurrentPage (JS.Math_maxZ 0 (s.(currentPage) - 1)) s.

Definition onNext (s : State) : State :=
  setCurrentPage
    (JS.Math_minZ (Z.of_nat (List.length s.(pdfPages)) - 1) (s.(currentPage) + 1)) s.

Definition previousDisabled (s : State) : bool := (s.(currentPage) =? 0)%Z.

Definition nextDisabled (s : State) : bool :=
  (s.(currentPage) =? Z.of_nat (List.length s.(pdfPages)) - 1)%Z.

Definition onZoomOut (s : State) : State :=
  setZoom (JS.Math_max (1 # 2) (s.(zoom) - (1 # 4))) s.

Definition onZoomIn (s : State) : State :=
  setZoom (JS.Math_min 3 (s.(zoom) + (1 # 4))) s.

Definition onZoomReset (s : State) : State := setZoom 1 s.

Definition onToggleSelecting (s : State) : State :=
  setIsSelecting (negb s.(isSelecting)) s.

Definition onClearSelection (s : State) : State := setSelection None s.

(* ------------------------------------------------------------------ *)
(** * The component: events, memoised callbacks, rendering             *)
(* ------------------------------------------------------------------ *)

(** [useCallback(fn, deps)]: the closure of the previous render is kept
    unless a dependency changed.  A closure is represented by the values it
    captured. *)
Definition useCallback {D : Type} (same : D -> D -> bool) (prev cur : D) : D :=
  if same prev cur then prev else cur.

(** Dependency comparison ([Object.is] on each entry).  Numbers are
    compared as values; an array or object is compared by what it holds,
    so a closure is kept only when what it captured cannot be told from
    the current values. *)
Definition Q_same (a b : Q) : bool :=
  (Qnum a =? Qnum b)%Z && (Qden a =? Qden b)%positive.

Definition Selection_same (a b : Selection) : bool :=
  Q_same a.(x) b.(x) && Q_same a.(y) b.(y)
  && Q_same a.(width) b.(width) && Q_same a.(height) b.(height).

Definition option_same {A} (same : A -> A -> bool) (a b : option A) : bool :=
  match a, b with
  | Some u, Some v => same u v
  | None, None => true
  | _, _ => false
  end.

Fixpoint list_same {A} (same : A -> A -> bool) (a b : list A) : bool :=
  match a, b with
  | [], [] => true
  | u :: a', v :: b' => same u v && list_same same a' b'
  | _, _ => false
  end.

Definition PDFPage_same (a b : PDFPage) : bool :=
  (a.(canvas).(cwidth) =? b.(canvas).(cwidth))%Z
  && (a.(canvas).(cheight) =? b.(canvas).(cheight))%Z
  && (a.(pageNumber) =? b.(pageNumber))%Z.

Definition OCRDeps_same (a b : OCRDeps) : bool :=
  option_same Selection_same a.(d_selection) b.(d_selection)
  && list_same PDFPage_same a.(d_pdfPages) b.(d_pdfPages)
  && (a.(d_currentPage) =? b.(d_currentPage))%Z
  && String.eqb a.(d_ocrLanguage) b.(d_ocrLanguage)
  && Q_same a.(d_zoom) b.(d_zoom).

(** The component between two events: the React state, the listeners the
    drags have registered on the document, the promises the handlers are
    suspended on, and the closures kept by [useCallback]. *)
Record App := mkApp {
  state : State;
  listeners : list Drag;
  pendingUpload : option Upload;
  pendingOCR : bool;
  pendingCopy : nat;
  performOCR_closure : OCRDeps;      (* deps: selection, pdfPages,
                                        currentPage, ocrLanguage, zoom *)
  handleMouseDown_closure : bool     (* deps: isSelecting *)
}.

Definition withState (a : App) (s : State) : App :=
  mkApp s a.(listeners) a.(pendingUpload) a.(pendingOCR) a.(pendingCopy)
        a.(performOCR_closure) a.(handleMouseDown_closure).

(** One render of [OCRTool].  [performOCR] and [handleMouseDown] are kept
    as the closures [useCallback] returns; the inline arrow functions of
    the buttons are made anew by every render and read the current state,
    and so do [drawCurrentPage] and [copyToClipboard], whose dependency
    lists hold every cell they read. *)
Definition render (a : App) : App :=
  mkApp a.(state) a.(listeners) a.(pendingUpload) a.(pendingOCR)
        a.(pendingCopy)
        (useCallback OCRDeps_same a.(performOCR_closure) (ocrDeps a.(state)))
        (useCallback Bool.eqb a.(handleMouseDown_closure)
                     a.(state).(isSelecting)).

(** The first render. *)
Definition initialApp : App :=
  mkApp initialState [] None false 0
        (ocrDeps initialState) initialState.(isSelecting).

Inductive Event :=
| FileChosen (files : option File)          (* change on the file input *)
| ImageSettled (loaded : option (Z * Z))    (* image load / error *)
| PdfSettled (doc : option (list (option (Q * Q))))
| MouseDown (e : MouseEvt)                  (* on the display canvas *)
| MouseMove (e : MouseEvt)                  (* on the document *)
| MouseUp                                   (* on the document *)
| ClickPrevious
| ClickNext
| ClickZoomOut
| ClickZoomIn
| ClickZoomReset
| SelectLanguage (lang : string)
| ClickSelectText
| ClickExtract
| RecognitionSettled (result : option JS.Text)
| ClickClearSelection
| EditText (t : JS.Text)
| ClickCopy
| ClipboardSettled (ok : bool).

(** Whether the controls below the upload card are rendered
    ([pdfPages.length > 0 && ...]). *)
Definition controlsRendered (s : State) : bool :=
  match s.(pdfPages) with [] => false | _ :: _ => true end.

(** Whether the Extracted Text card is rendered ([extractedText && ...]). *)
Definition textRendered (s : State) : bool :=
  match s.(extractedText) with [] => false | _ :: _ => true end.

Definition hasSelection (s : State) : bool :=
  match s.(selection) with Some _ => true | None => false end.

(** What an event does: the handler attached to the control runs if the
    control is rendered and enabled; a settled promise resumes the handler
    suspended on it. *)
Definition handle (ev : Event) (a : App) : App * list Effect :=
  let s := a.(state) in
  match ev with
  | FileChosen files =>
      if s.(isProcessing) then (a, []) else
      let '(s', effs, p) := handleFileUpload_start files s in
      (mkApp s' a.(listeners)
             (match p with Some u => Some u | None => a.(pendingUpload) end)
             a.(pendingOCR) a.(pendingCopy)
             a.(performOCR_closure) a.(handleMouseDown_closure), effs)
  | ImageSettled loaded =>
      match a.(pendingUpload) with
      | Some UImage =>
          let '(s', effs) := handleFileUpload_image loaded s in
          (mkApp s' a.(listeners) None a.(pendingOCR) a.(pendingCopy)
                 a.(performOCR_closure) a.(handleMouseDown_closure), effs)
      | _ => (a, [])
      end
  | PdfSettled doc =>
      match a.(pendingUpload) with
      | Some UPdf =>
          let '(s', effs) := handleFileUpload_pdf doc s in
          (mkApp s' a.(listeners) None a.(pendingOCR) a.(pendingCopy)
                 a.(performOCR_closure) a.(handleMouseDown_closure), effs)
      | _ => (a, [])
      end
  | MouseDown e =>
      if negb (canvasMounted s) then (a, []) else
      let '(s', ls) := handleMouseDown a.(handleMouseDown_closure) e s in
      (mkApp s' (a.(listeners) ++ ls) a.(pendingUpload) a.(pendingOCR)
             a.(pendingCopy)
             a.(performOCR_closure) a.(handleMouseDown_closure), [])
  | MouseMove e =>
      (withState a (fold_left (fun s' d => handleMouseMove d e s')
                              a.(listeners) s), [])
  | MouseUp =>
      (mkApp (fold_left (fun s' _ => handleMouseUp s') a.(listeners) s)
             [] a.(pendingUpload) a.(pendingOCR) a.(pendingCopy)
             a.(performOCR_closure) a.(handleMouseDown_closure), [])
  | ClickPrevious =>
      if controlsRendered s && negb (previousDisabled s)
      then (withState a (onPrevious s), []) else (a, [])
  | ClickNext =>
      if controlsRendered s && negb (nextDisabled s)
      then (withState a (onNext s), []) else (a, [])
  | ClickZoomOut =>
      if controlsRendered s then (withState a (onZoomOut s), []) else (a, [])
  | ClickZoomIn =>
      if controlsRendered s then (withState a (onZoomIn s), []) else (a, [])
  | ClickZoomReset =>
      if controlsRendered s then (withState a (onZoomReset s), []) else (a, [])
  | SelectLanguage lang =>
      if controlsRendered s then (withState a (setOcrLanguage lang s), [])
      else (a, [])
  | ClickSelectText =>
      if controlsRendered s then (withState a (onToggleSelecting s), [])
      else (a, [])
  | ClickExtract =>
      if controlsRendered s && hasSelection s && negb s.(isProcessing) then
        let '(s', effs, p) := performOCR_start a.(performOCR_closure) s in
        (mkApp s' a.(listeners) a.(pendingUpload) (a.(pendingOCR) || p)
               a.(pendingCopy)
               a.(performOCR_closure) a.(handleMouseDown_closure), effs)
      else (a, [])
  | RecognitionSettled result =>
      if a.(pendingOCR) then
        let '(s', effs) := performOCR_settled result s in
        (mkApp s' a.(listeners) a.(pendingUpload) false a.(pendingCopy)
               a.(performOCR_closure) a.(handleMouseDown_closure), effs)
      else (a, [])
  | ClickClearSelection =>
      if controlsRendered s && hasSelection s
      then (withState a (onClearSelection s), []) else (a, [])
  | EditText t =>
      if textRendered s then (withState a (setExtractedText t s), [])
      else (a, [])
  | ClickCopy =>
      if textRendered s then
        let '(effs, p) := copyToClipboard_start s in
        (mkApp s a.(listeners) a.(pendingUpload) a.(pendingOCR)
               (if p then S a.(pendingCopy) else a.(pendingCopy))
               a.(performOCR_closure) a.(handleMouseDown_closure), effs)
      else (a, [])
  | ClipboardSettled ok =>
      match a.(pendingCopy) with
      | O => (a, [])
      | S n =>
          (mkApp s a.(listeners) a.(pendingUpload) a.(pendingOCR) n
                 a.(performOCR_closure) a.(handleMouseDown_closure),
           copyToClipboard_settled ok)
      end
  end.

(** An event is handled, then the component renders again. *)
Definition dispatch (ev : Event) (a : App) : App * list Effect :=
  let '(a', effs) := handle ev a in (render a', effs).

(** A run of the component over a sequence of events, with the effects it
    performed, in order. *)
Fixpoint run (evs : list Event) (a : App) : App * list Effect :=
  match evs with
  | [] => (a, [])
  | ev :: rest =>
      let '(a1, e1) := dispatch ev a in
      let '(a2, e2) := run rest a1 in
      (a2, e1 ++ e2)
  end.

(** The states the component can be in. *)
Definition reachable (a : App) : Prop :=
  exists evs, fst (run evs initialApp) = a.

(* ------------------------------------------------------------------ *)
(** * Vocabulary of the statements                                     *)
(* ------------------------------------------------------------------ *)

(** The closures agree with the state of the render that made them. *)
Definition closuresCurrent (a : App) : Prop :=
  a.(performOCR_closure) = ocrDeps a.(state)
  /\ a.(handleMouseDown_closure) = a.(state).(isSelecting).

(** The rectangle [handleMouseMove] computes for a drag anchored at
    [(x0, y0)] whose pointer is at [(x1, y1)]. *)
Definition dragRect (x0 y0 x1 y1 : Q) : Selection :=
  {| x := Qmin x0 x1; y := Qmin y0 y1;
     width := Qabs (x1 - x0); height := Qabs (y1 - y0) |}.

(** The display canvas has a rendered size when the event is handled. *)
Definition laidOut (e : MouseEvt) : Prop :=
  0 < e.(rect).(rwidth) /\ 0 < e.(rect).(rheight).

Definition zoomInRange (z : Q) : Prop := (1 # 2) <= z /\ z <= 3.

(** The selection of a session (a zero rectangle when there is none). *)
Definition selectionOf (a : App) : Selection :=
  match a.(state).(selection) with
  | Some sel => sel
  | None => mkSelection 0 0 0 0
  end.

(** ** A sample session *)

Definition demoFile : File := mkFile "scan.png" "image/png".

Definition demoMouse (cx cy : Q) : MouseEvt :=
  mkMouse cx cy (mkCanvas 2000 1600) (mkRect 0 0 2000 1600).

(** A session with a 1000 x 800 image at zoom 2 and selecting mode on. *)
Definition demoEvents : list Event :=
  [FileChosen (Some demoFile); ImageSettled (Some (1000, 800)%Z);
   ClickZoomIn; ClickZoomIn; ClickZoomIn; ClickZoomIn; ClickSelectText].

Definition demoApp : App := fst (run demoEvents initialApp).

(** The selection has been drawn from (100,100) to (300,250). *)
Definition demoDragged : App :=
  fst (run [MouseDown (demoMouse 100 100); MouseMove (demoMouse 300 250);
            MouseUp] demoApp).

(** What that session selects (the rectangle 100, 100, 200, 150, as the
    fractions the handler computes), the page it crops and what it
    paints. *)
Definition demoSel : Selection :=
  mkSelection (200000 # 2000) (160000 # 1600)
              (800000000 # 4000000) (384000000 # 2560000).
Definition demoPage : PDFPage := mkPage (mkCanvas 1000 800) 1.
Definition demoCrop : TempCanvas :=
  extractRegion demoSel (zoom (state demoDragged)) demoPage.
Definition demoPainted : Painted :=
  mkPainted (mkCanvas 2000 1600)
            (zoom (state demoDragged), zoom (state demoDragged))
            demoPage (Some demoSel).

(** The canvas has been clicked at (100,100) without moving. *)
Definition demoClicked : App :=
  fst (run [MouseDown (demoMouse 100 100); MouseUp] demoApp).

(** The selection has been drawn from (0,0) to (3,3). *)
Definition demoOdd : App :=
  fst (run [MouseDown (demoMouse 0 0); MouseMove (demoMouse 3 3); MouseUp]
           demoApp).

(** The selection has been drawn from (1900,1500) to (2100,1700), past the
    right and bottom edges of the 2000 x 1600 display canvas. *)
Definition demoOutside : App :=
  fst (run [MouseDown (demoMouse 1900 1500); MouseMove (demoMouse 2100 1700);
            MouseUp] demoApp).

(** ** Region extraction *)

(** The source rectangle of a [drawImage] call lies inside the image. *)
Definition withinImage (d : DrawImage) : bool :=
  Qle_bool 0 d.(sx) && Qle_bool 0 d.(sy)
  && Qle_bool (d.(sx) + d.(sw)) (inject_Z d.(image).(cwidth))
  && Qle_bool (d.(sy) + d.(sh)) (inject_Z d.(image).(cheight)).

(** The zoom events, and the zoom factor they leave. *)
Definition isZoomEvent (ev : Event) : Prop :=
  ev = ClickZoomOut \/ ev = ClickZoomIn \/ ev = ClickZoomReset.

Definition zoomAfter (ev : Event) (z : Q) : Q :=
  match ev with
  | ClickZoomOut => Qmax (1 # 2) (z - (1 # 4))
  | ClickZoomIn => Qmin 3 (z + (1 # 4))
  | ClickZoomReset => 1
  | _ => z
  end.

Definition zoomsAfter (evs : list Event) (z : Q) : Q :=
  fold_left (fun z' ev => zoomAfter ev z') evs z.

(** ** Upload and navigation *)

(** An animated GIF, and a PDF that cannot be parsed. *)
Definition gifFile : File := mkFile "anim.gif" "image/gif".
Definition brokenPdf : File := mkFile "broken.pdf" "application/pdf".

(** The file is of one of the types the page asks for (PDF, JPG or PNG). *)
Definition advertisedType (file : File) : bool :=
  String.eqb file.(type) "application/pdf"
  || String.eqb file.(type) "image/jpeg"
  || String.eqb file.(type) "image/png".

(** The page list of a PDF whose pages all render, if they do. *)
Definition pdfOutcome (doc : option (list (option (Q * Q))))
  : option (list PDFPage) :=
  match doc with
  | Some viewports => renderPages viewports 1 []
  | None => None
  end.

(** The current page index points into a non-empty page list. *)
Definition pageIndexOK (s : State) : Prop :=
  s.(pdfPages) <> [] ->
  (0 <= s.(currentPage) <= Z.of_nat (List.length s.(pdfPages)) - 1)%Z.

(** ** What a render shows *)

(** The zoom label: [Math.round(zoom * 100)] percent. *)
Definition zoomLabel (s : State) : Z := JS.Math_round (s.(zoom) * 100).


(** The message of the overlay shown while [isProcessing]. *)
Definition processingOverlay (s : State) : option string :=
  if s.(isProcessing) then
    Some (match s.(pdfPages) with
          | [] => "Loading PDF..."%string
          | _ :: _ => "Extracting text..."%string
          end)
  else None.

(** ** Session invariants *)

(** The processing flag is up exactly while an upload or a recognition
    call is outstanding, the two never overlap, and a recognition call is
    only outstanding over a loaded document. *)
Definition gateOK (a : App) : Prop :=
  a.(state).(isProcessing)
  = (match a.(pendingUpload) with Some _ => true | None => false end)
    || a.(pendingOCR)
  /\ (a.(pendingUpload) = None \/ a.(pendingOCR) = false)
  /\ (a.(pendingOCR) = true -> a.(state).(pdfPages) <> []).

(** The zoom factor is one of 0.5, 0.75, ..., 3. *)
Definition onZoomGrid (z : Q) : Prop :=
  exists k : Z, (2 <= k <= 12)%Z /\ z == k # 4.

(** A canvas size is a non-negative 31-bit integer. *)
Definition canvasSizeOK (c : Canvas) : Prop :=
  (0 <= c.(cwidth) <= 2147483647)%Z /\ (0 <= c.(cheight) <= 2147483647)%Z.


(** The events whose handlers write the selection. *)
Definition writesSelection (ev : Event) : bool :=
  match ev with
  | MouseDown _ | MouseMove _ | ClickClearSelection => true
  | _ => false
  end.


(** A session in which a recognition call is outstanding, and one in which
    the recognised text has arrived and been copied. *)
Definition demoExtracting : App := fst (dispatch ClickExtract demoDragged).

Definition demoText : JS.Text := [32; 72; 105; 10]%N.

Definition demoCopyEvents : list Event :=
  demoEvents
  ++ [MouseDown (demoMouse 100 100); MouseMove (demoMouse 300 250); MouseUp;
      ClickExtract; RecognitionSettled (Some demoText); ClickCopy].

(** A PDF of three pages at scale 2. *)
Definition demoViewports : list (option (Q * Q)) :=
  [Some (1224, 1584); Some (1224, 1584); Some (1190 # 1, 1684 # 1)].

Definition demoPdfApp : App :=
  fst (run [FileChosen (Some (mkFile "paper.pdf" "application/pdf"));
            PdfSettled (Some demoViewports); ClickNext] initialApp).

(** The event is the settling of a recognition call. *)
Definition isRecognitionSettled (ev : Event) : bool :=
  match ev with RecognitionSettled _ => true | _ => false end.


(* ------------------------------------------------------------------ *)
(** * Basic facts about the embedding                                  *)
(* ------------------------------------------------------------------ *)

(** Case analysis on the branch a handler takes. *)
Ltac break_match :=
  match goal with
  | |- context [match ?c with _ => _ end] =>
      lazymatch c with
      | context [match _ with _ => _ end] => fail
      | _ => destruct c eqn:?
      end
  end.

Ltac unfold_handlers :=
  unfold handle, withState, handleFileUpload_start, handleFileUpload_image,
    handleFileUpload_pdf, handleFileUpload_catch, performOCR_start,
    performOCR_settled, handleMouseDown, copyToClipboard_start.

Section Run.

Lemma run_app (evs1 evs2 : list Event) (a : App) :
  run (evs1 ++ evs2) a =
  let '(a1, e1) := run evs1 a in
  let '(a2, e2) := run evs2 a1 in (a2, e1 ++ e2).
Proof.
  revert a; induction evs1 as [|ev evs1 IH]; intros a; simpl.
  - destruct (run evs2 a); reflexivity.
  - destruct (dispatch ev a) as [a1 e1].
    rewrite IH. destruct (run evs1 a1) as [a2 e2].
    destruct (run evs2 a2) as [a3 e3]. now rewrite app_assoc.
Qed.

Lemma run_app_fst (evs1 evs2 : list Event) (a : App) :
  fst (run (evs1 ++ evs2) a) = fst (run evs2 (fst (run evs1 a))).
Proof.
  rewrite run_app. destruct (run evs1 a) as [a1 e1]; simpl.
  now destruct (run evs2 a1).
Qed.

Lemma run_cons_fst (ev : Event) (evs : list Event) (a : App) :
  fst (run (ev :: evs) a) = fst (run evs (fst (dispatch ev a))).
Proof.
  simpl. destruct (dispatch ev a) as [a1 e1]; simpl.
  now destruct (run evs a1).
Qed.

Lemma run_snoc_fst (evs : list Event) (ev : Event) (a : App) :
  fst (run (evs ++ [ev]) a) = fst (dispatch ev (fst (run evs a))).
Proof.
  rewrite run_app_fst. simpl.
  now destruct (dispatch ev (fst (run evs a))).
Qed.

Lemma reachable_initial : reachable initialApp.
Proof. now exists []. Qed.

Lemma reachable_dispatch (ev : Event) (a : App) :
  reachable a -> reachable (fst (dispatch ev a)).
Proof.
  intros [evs <-]. exists (evs ++ [ev]). apply run_snoc_fst.
Qed.

Lemma reachable_run (evs : list Event) (a : App) :
  reachable a -> reachable (fst (run evs a)).
Proof.
  revert a; induction evs as [|ev evs IH]; intros a Ha; [exact Ha|].
  rewrite run_cons_fst. now apply IH, reachable_dispatch.
Qed.

(** Induction over the reachable states. *)
Lemma reachable_ind (P : App -> Prop) :
  P initialApp ->
  (forall ev a, reachable a -> P a -> P (fst (dispatch ev a))) ->
  forall a, reachable a -> P a.
Proof.
  intros H0 Hstep a [evs <-].
  induction evs as [|ev evs IH] using rev_ind; [exact H0|].
  rewrite run_snoc_fst. apply Hstep; [now exists evs | exact IH].
Qed.

End Run.

Section Closures.

Lemma Q_same_eq (a b : Q) : Q_same a b = true -> a = b.
Proof.
  destruct a as [n d], b as [n' d']; unfold Q_same; simpl.
  rewrite andb_true_iff, Z.eqb_eq, Pos.eqb_eq. now intros [-> ->].
Qed.

Lemma Selection_same_eq (a b : Selection) : Selection_same a b = true -> a = b.
Proof.
  destruct a, b; unfold Selection_same; simpl.
  rewrite !andb_true_iff. intros [[[H1 H2] H3] H4].
  apply Q_same_eq in H1, H2, H3, H4. now subst.
Qed.

Lemma option_same_eq {A} (same : A -> A -> bool) :
  (forall u v, same u v = true -> u = v) ->
  forall a b, option_same same a b = true -> a = b.
Proof.
  intros H [u|] [v|]; simpl; try discriminate; auto.
  intros E; f_equal; auto.
Qed.

Lemma list_same_eq {A} (same : A -> A -> bool) :
  (forall u v, same u v = true -> u = v) ->
  forall a b, list_same same a b = true -> a = b.
Proof.
  intros H a; induction a as [|u a IH]; intros [|v b]; simpl;
    try discriminate; auto.
  rewrite andb_true_iff. intros [E1 E2]. f_equal; auto.
Qed.

Lemma PDFPage_same_eq (a b : PDFPage) : PDFPage_same a b = true -> a = b.
Proof.
  destruct a as [[w h] n], b as [[w' h'] n']; unfold PDFPage_same; simpl.
  rewrite !andb_true_iff, !Z.eqb_eq. now intros [[-> ->] ->].
Qed.

Lemma OCRDeps_same_eq (a b : OCRDeps) : OCRDeps_same a b = true -> a = b.
Proof.
  destruct a, b; unfold OCRDeps_same; simpl.
  rewrite !andb_true_iff, Z.eqb_eq, String.eqb_eq.
  intros [[[[H1 H2] H3] H4] H5].
  apply (option_same_eq _ Selection_same_eq) in H1.
  apply (list_same_eq _ PDFPage_same_eq) in H2.
  apply Q_same_eq in H5. now subst.
Qed.

(** A callback whose dependency list holds everything it captures always
    sees the values of the current render. *)
Lemma useCallback_current {D} (same : D -> D -> bool) (prev cur : D) :
  (forall u v, same u v = true -> u = v) ->
  useCallback same prev cur = cur.
Proof.
  intros H. unfold useCallback.
  destruct (same prev cur) eqn:E; [now apply H | reflexivity].
Qed.

Lemma render_state (a : App) : state (render a) = state a.
Proof. reflexivity. Qed.

Lemma render_current (a : App) : closuresCurrent (render a).
Proof.
  split; simpl.
  - apply useCallback_current, OCRDeps_same_eq.
  - apply useCallback_current. intros u v. apply Bool.eqb_prop.
Qed.

Lemma render_fixed (a : App) : closuresCurrent a -> render a = a.
Proof.
  intros [H1 H2]. destruct a; simpl in *. unfold render; simpl.
  rewrite useCallback_current by apply OCRDeps_same_eq.
  rewrite useCallback_current by (intros u v; apply Bool.eqb_prop).
  now subst.
Qed.

Lemma dispatch_current (ev : Event) (a : App) :
  closuresCurrent (fst (dispatch ev a)).
Proof.
  unfold dispatch. destruct (handle ev a) as [a' effs]. apply render_current.
Qed.

Lemma reachable_current (a : App) : reachable a -> closuresCurrent a.
Proof.
  intros Ha. induction Ha as [|ev a _ _] using reachable_ind.
  - split; reflexivity.
  - apply dispatch_current.
Qed.

End Closures.

(* ------------------------------------------------------------------ *)
(** * Selection Tracker                                                *)
(* ------------------------------------------------------------------ *)

Section SelectionTracker.

Lemma min_plus_abs (a b : Q) : Qmin a b + Qabs (b - a) == Qmax a b.
Proof.
  destruct (Qlt_le_dec b a) as [H|H].
  - rewrite Q.min_r, Q.max_l by lra.
    rewrite Qabs_neg by lra. ring.
  - rewrite Q.min_l, Q.max_r by lra.
    rewrite Qabs_pos by lra. ring.
Qed.

(** The listener registered last decides the selection after a move. *)
Lemma moveAll_last (ls : list Drag) (d : Drag) (e : MouseEvt) (s : State) :
  selection (fold_left (fun s' d' => handleMouseMove d' e s') (ls ++ [d]) s)
  = Some (dragRect d.(anchorX) d.(anchorY) (canvasX e) (canvasY e)).
Proof. rewrite fold_left_app. reflexivity. Qed.

Lemma dispatch_move (e : MouseEvt) (a : App) :
  listeners (fst (dispatch (MouseMove e) a)) = listeners a
  /\ state (fst (dispatch (MouseMove e) a))
     = fold_left (fun s' d' => handleMouseMove d' e s')
                 a.(listeners) a.(state).
Proof. split; reflexivity. Qed.

(** While a drag is in progress, every move leaves the rectangle spanned
    by the anchor and the pointer. *)
Lemma moves_selection (moves : list MouseEvt) (last : MouseEvt)
      (ls : list Drag) (d : Drag) (a : App) :
  listeners a = ls ++ [d] ->
  let a' := fst (run (map MouseMove (moves ++ [last])) a) in
  listeners a' = ls ++ [d]
  /\ selection (state a')
     = Some (dragRect d.(anchorX) d.(anchorY) (canvasX last) (canvasY last)).
Proof.
  revert a; induction moves as [|m moves IH]; intros a Ha; cbn zeta.
  - cbn [app map]. rewrite run_cons_fst. cbn [run fst].
    destruct (dispatch_move last a) as [Hl Hs].
    rewrite Hl, Hs, Ha. split; [reflexivity | apply moveAll_last].
  - cbn [app map]. rewrite run_cons_fst. apply IH.
    now rewrite (proj1 (dispatch_move m a)).
Qed.

Lemma dispatch_down (e : MouseEvt) (a : App) :
  handleMouseDown_closure a = true ->
  canvasMounted (state a) = true ->
  listeners (fst (dispatch (MouseDown e) a))
  = listeners a ++ [mkDrag (canvasX e) (canvasY e)]
  /\ selection (state (fst (dispatch (MouseDown e) a)))
     = Some (mkSelection (canvasX e) (canvasY e) 0 0).
Proof.
  intros Hc Hm. unfold dispatch, handle, handleMouseDown.
  rewrite Hc, Hm. split; reflexivity.
Qed.

Lemma dispatch_up_selection (a : App) :
  selection (state (fst (dispatch MouseUp a))) = selection (state a)
  /\ listeners (fst (dispatch MouseUp a)) = [].
Proof.
  split; [|reflexivity]. cbn.
  generalize (state a). induction (listeners a) as [|d ls IH]; intros s;
    simpl; [reflexivity|]. now rewrite IH.
Qed.

Lemma dragRect_normalized (x0 y0 x1 y1 : Q) :
  let r := dragRect x0 y0 x1 y1 in
  0 <= r.(width) /\ 0 <= r.(height)
  /\ r.(x) <= x0 /\ r.(x) <= x1 /\ r.(y) <= y0 /\ r.(y) <= y1
  /\ r.(x) + r.(width) == Qmax x0 x1
  /\ r.(y) + r.(height) == Qmax y0 y1.
Proof.
  cbn -[Qmin Qmax Qabs].
  repeat split; try apply Qabs_nonneg; try apply Q.le_min_l;
    try apply Q.le_min_r; apply min_plus_abs.
Qed.

(** C1. While selecting mode is on, a drag over the laid-out display
    canvas that starts at canvas coordinates (x0, y0) and whose pointer
    ends at (x1, y1), after any intermediate moves and in any direction,
    leaves the selection
    { x: min(x0,x1), y: min(y0,y1), width: |x1-x0|, height: |y1-y0| };
    its width and height are non-negative, (x, y) is its top-left corner
    and (x+width, y+height) the opposite one; releasing the button keeps
    it and removes the listeners. *)
Theorem drag_selection (a : App) (down last : MouseEvt)
        (moves : list MouseEvt) :
  reachable a ->
  isSelecting (state a) = true ->
  pdfPages (state a) <> [] ->
  Forall laidOut (down :: moves ++ [last]) ->
  let x0 := canvasX down in
  let y0 := canvasY down in
  let x1 := canvasX last in
  let y1 := canvasY last in
  let dragging :=
    fst (run (MouseDown down :: map MouseMove (moves ++ [last])) a) in
  let released := fst (dispatch MouseUp dragging) in
  selection (state dragging)
  = Some {| x := JS.Math_min x0 x1; y := JS.Math_min y0 y1;
            width := JS.Math_abs (x1 - x0);
            height := JS.Math_abs (y1 - y0) |}
  /\ selection (state released) = selection (state dragging)
  /\ listeners released = []
  /\ (forall sel, selection (state released) = Some sel ->
        0 <= sel.(width) /\ 0 <= sel.(height)
        /\ sel.(x) <= x0 /\ sel.(x) <= x1
        /\ sel.(y) <= y0 /\ sel.(y) <= y1
        /\ sel.(x) + sel.(width) == Qmax x0 x1
        /\ sel.(y) + sel.(height) == Qmax y0 y1).
Proof.
  intros Hr Hsel Hpages _ x0 y0 x1 y1 dragging released.
  assert (Hc : handleMouseDown_closure a = true).
  { rewrite (proj2 (reachable_current a Hr)). exact Hsel. }
  assert (Hm : canvasMounted (state a) = true).
  { unfold canvasMounted. destruct (pdfPages (state a)); congruence. }
  destruct (dispatch_down down a Hc Hm) as [Hl _].
  assert (Hd : selection (state dragging) = Some (dragRect x0 y0 x1 y1)).
  { unfold dragging. rewrite run_cons_fst.
    exact (proj2 (moves_selection moves last _ _ _ Hl)). }
  destruct (dispatch_up_selection dragging) as [Hu Hn].
  split; [exact Hd|]. split; [exact Hu|]. split; [exact Hn|].
  intros sel Hs. fold released in Hu. rewrite Hu, Hd in Hs.
  injection Hs as <-. apply dragRect_normalized.
Qed.

Lemma demoApp_reachable : reachable demoApp.
Proof. exists demoEvents. unfold demoApp. exact eq_refl. Qed.

Lemma drag_selection_witness :
  let dragging :=
    fst (run [MouseDown (demoMouse 300 250); MouseMove (demoMouse 200 90);
              MouseMove (demoMouse 100 100)] demoApp) in
  selection (state dragging)
  = Some {| x := JS.Math_min (canvasX (demoMouse 300 250))
                             (canvasX (demoMouse 100 100));
            y := JS.Math_min (canvasY (demoMouse 300 250))
                             (canvasY (demoMouse 100 100));
            width := JS.Math_abs (canvasX (demoMouse 100 100)
                                  - canvasX (demoMouse 300 250));
            height := JS.Math_abs (canvasY (demoMouse 100 100)
                                   - canvasY (demoMouse 300 250)) |}.
Proof.
  refine (proj1 (drag_selection demoApp (demoMouse 300 250)
                   (demoMouse 100 100) [demoMouse 200 90]
                   demoApp_reachable _ _ _)).
  - vm_compute; reflexivity.
  - vm_compute; discriminate.
  - repeat constructor; reflexivity.
Defined.

End SelectionTracker.

(* ------------------------------------------------------------------ *)
(** * Zoom controls                                                    *)
(* ------------------------------------------------------------------ *)

Section Zoom.

Lemma onZoomOut_range (s : State) :
  zoomInRange (zoom s) -> zoomInRange (zoom (onZoomOut s)).
Proof.
  intros [H1 H2]. unfold onZoomOut, JS.Math_max; cbn [zoom setZoom]. split.
  - apply Q.le_max_l.
  - apply Q.max_lub; lra.
Qed.

Lemma onZoomIn_range (s : State) :
  zoomInRange (zoom s) -> zoomInRange (zoom (onZoomIn s)).
Proof.
  intros [H1 H2]. unfold onZoomIn, JS.Math_min; cbn [zoom setZoom]. split.
  - apply Q.min_glb; lra.
  - apply Q.le_min_l.
Qed.

Lemma onZoomReset_range (s : State) : zoomInRange (zoom (onZoomReset s)).
Proof. split; cbn; lra. Qed.

(** No handler other than the three zoom buttons writes [zoom]. *)
Lemma fold_moves_zoom (e : MouseEvt) (ls : list Drag) (s : State) :
  zoom (fold_left (fun s' d' => handleMouseMove d' e s') ls s) = zoom s.
Proof.
  revert s; induction ls as [|d ls IH]; intros s; [reflexivity|].
  cbn [fold_left]. now rewrite IH.
Qed.

Lemma fold_ups_zoom (ls : list Drag) (s : State) :
  zoom (fold_left (fun s' _ => handleMouseUp s') ls s) = zoom s.
Proof.
  revert s; induction ls as [|d ls IH]; intros s; [reflexivity|].
  cbn [fold_left]. now rewrite IH.
Qed.

(** No handler other than the three zoom buttons writes [zoom]. *)
Lemma handle_zoom (ev : Event) (a : App) :
  let z' := zoom (state (fst (handle ev a))) in
  z' = zoom (state a)
  \/ z' = zoom (onZoomOut (state a))
  \/ z' = zoom (onZoomIn (state a))
  \/ z' = zoom (onZoomReset (state a)).
Proof.
  destruct ev; unfold_handlers; cbn zeta;
    repeat break_match; cbn -[onZoomOut onZoomIn onZoomReset]; auto;
    left; first [apply fold_moves_zoom | apply fold_ups_zoom].
Qed.

Lemma reachable_zoom (a : App) : reachable a -> zoomInRange (zoom (state a)).
Proof.
  intros Ha. induction Ha as [|ev a _ IH] using reachable_ind.
  - split; cbn; lra.
  - unfold dispatch. destruct (handle ev a) as [a' effs] eqn:E.
    cbn [fst]. rewrite render_state.
    pose proof (handle_zoom ev a) as H. rewrite E in H. cbn [fst] in H.
    destruct H as [H|[H|[H|H]]]; rewrite H;
      auto using onZoomOut_range, onZoomIn_range, onZoomReset_range.
Qed.

(** C8. The zoom factor starts at 1; in every state the component can
    reach it lies in [0.5, 3]; zooming out from a value of at least 0.5
    gives a value of at least 0.5 (namely max(0.5, z - 0.25)), zooming in
    from a value of at most 3 gives a value of at most 3 (namely
    min(3, z + 0.25)), and reset gives 1. *)
Theorem zoom_bounded :
  zoom initialState = 1
  /\ (forall evs, zoomInRange (zoom (state (fst (run evs initialApp)))))
  /\ (forall s, zoom (onZoomOut s) = Qmax (1 # 2) (zoom s - (1 # 4))
                /\ (1 # 2) <= zoom (onZoomOut s)
                /\ (zoom s <= 3 -> zoom (onZoomOut s) <= 3))
  /\ (forall s, zoom (onZoomIn s) = Qmin 3 (zoom s + (1 # 4))
                /\ zoom (onZoomIn s) <= 3
                /\ ((1 # 2) <= zoom s -> (1 # 2) <= zoom (onZoomIn s)))
  /\ (forall s, zoom (onZoomReset s) = 1).
Proof.
  split; [reflexivity|]. split.
  { intros evs. apply reachable_zoom. now exists evs. }
  split; [|split]; intros s.
  - split; [reflexivity|]. cbn [onZoomOut zoom setZoom JS.Math_max]. split.
    + apply Q.le_max_l.
    + intros H. apply Q.max_lub; lra.
  - split; [reflexivity|]. cbn [onZoomIn zoom setZoom JS.Math_min]. split.
    + apply Q.le_min_l.
    + intros H. apply Q.min_glb; lra.
  - reflexivity.
Qed.

End Zoom.

(* ------------------------------------------------------------------ *)
(** * Region Extractor                                                 *)
(* ------------------------------------------------------------------ *)

Section RegionExtractor.

Lemma pageAt_nonempty (pages : list PDFPage) (i : Z) (p : PDFPage) :
  pageAt pages i = Some p -> pages <> [].
Proof.
  unfold pageAt. destruct (i <? 0)%Z; [discriminate|].
  intros H ->. now destruct (Z.to_nat i).
Qed.

Lemma IntegerPart_floor (q : Q) : 0 <= q -> JS.IntegerPart q = Qfloor q.
Proof.
  destruct q as [n d]. unfold Qle, JS.IntegerPart; cbn. intros H.
  apply Z.quot_div_nonneg; lia.
Qed.

Lemma Qfloor_nonneg (q : Q) : 0 <= q -> (0 <= Qfloor q)%Z.
Proof.
  destruct q as [n d]. unfold Qle; cbn. intros H.
  apply Z.div_pos; lia.
Qed.

(** Assigning a non-negative number below 2^31 to [canvas.width] keeps its
    integer part. *)
Lemma set_unsigned_long_floor (default : Z) (q : Q) :
  0 <= q -> (Qfloor q <= 2147483647)%Z ->
  JS.set_unsigned_long default q = Qfloor q.
Proof.
  intros H0 H1. pose proof (Qfloor_nonneg q H0) as H2.
  unfold JS.set_unsigned_long, JS.ToUint32.
  rewrite IntegerPart_floor by exact H0.
  rewrite Z.mod_small by lia.
  destruct (Z.leb_spec (Qfloor q) 2147483647); [reflexivity | lia].
Qed.

(** What pressing Extract does in a state where the button is enabled and
    the current page exists. *)
Lemma dispatch_extract (a : App) (sel : Selection) (page : PDFPage) :
  reachable a ->
  selection (state a) = Some sel ->
  pageAt (pdfPages (state a)) (currentPage (state a)) = Some page ->
  isProcessing (state a) = false ->
  snd (dispatch ClickExtract a)
  = [ERecognize (extractRegion sel (zoom (state a)) page)
                (ocrLanguage (state a))]
  /\ state (fst (dispatch ClickExtract a)) = setIsProcessing true (state a)
  /\ pendingOCR (fst (dispatch ClickExtract a)) = true.
Proof.
  intros Hr Hsel Hpage Hproc.
  destruct (reachable_current a Hr) as [Hc _].
  pose proof (pageAt_nonempty _ _ _ Hpage) as Hne.
  unfold dispatch, handle, controlsRendered, hasSelection, performOCR_start.
  rewrite Hc, Hsel, Hproc. cbn [ocrDeps d_selection d_pdfPages d_currentPage
                                 d_zoom d_ocrLanguage].
  rewrite Hsel, Hpage.
  destruct (pdfPages (state a)); [congruence|]. cbn.
  rewrite orb_true_r. repeat split; reflexivity.
Qed.

Lemma performOCR_start_no_page (env : OCRDeps) (s : State) :
  pageAt (d_pdfPages env) (d_currentPage env) = None ->
  performOCR_start env s = (s, [], false).
Proof.
  unfold performOCR_start. intros ->. now destruct (d_selection env).
Qed.

(** With no selection the button is not rendered and nothing happens. *)
Lemma dispatch_extract_none (a : App) :
  reachable a ->
  selection (state a) = None ->
  dispatch ClickExtract a = (a, []).
Proof.
  intros Hr Hsel. unfold dispatch, handle, hasSelection. rewrite Hsel.
  rewrite andb_false_r. cbn. now rewrite render_fixed by now apply reachable_current.
Qed.

Lemma scale_back (v z : Q) : ~ z == 0 -> v / z * z == v.
Proof. intros Hz. field. exact Hz. Qed.

Lemma within_one (u v : Q) : u == v -> Qabs (u - v) <= 1.
Proof.
  intros E. assert (H : u - v == 0) by (rewrite E; ring).
  rewrite H. cbn. lra.
Qed.

(** C2. For a selection and a zoom factor z in [0.5, 3]: the rectangle the
    Region Extractor computes (x, y, width, height each divided by z), put
    back through the scale the Viewport Renderer draws the page with
    (multiplication by z), is within 1 pixel of the selection in each of
    x, y, width and height. *)
Theorem round_trip (s : State) (sel : Selection) (t : TempCanvas)
        (lang : string) (p : Painted) :
  zoomInRange (zoom s) ->
  selection s = Some sel ->
  snd (fst (performOCR_start (ocrDeps s) s)) = [ERecognize t lang] ->
  drawCurrentPage s = Some p ->
  let origin := toDisplay p (t.(drawn).(sx), t.(drawn).(sy)) in
  let extent := toDisplay p (t.(drawn).(sw), t.(drawn).(sh)) in
  Qabs (fst origin - sel.(x)) <= 1
  /\ Qabs (snd origin - sel.(y)) <= 1
  /\ Qabs (fst extent - sel.(width)) <= 1
  /\ Qabs (snd extent - sel.(height)) <= 1.
Proof.
  intros [Hz _] Hsel Hrec Hdraw.
  assert (Hnz : ~ zoom s == 0) by lra.
  unfold performOCR_start in Hrec. cbn [ocrDeps d_selection d_pdfPages
    d_currentPage d_zoom d_ocrLanguage] in Hrec. rewrite Hsel in Hrec.
  unfold drawCurrentPage in Hdraw.
  destruct (canvasMounted s); [|discriminate].
  destruct (pageAt (pdfPages s) (currentPage s)) as [page|]; [|discriminate].
  cbn in Hrec, Hdraw. injection Hrec as <- _. injection Hdraw as <-.
  cbn -[Qabs]. repeat split; apply within_one, scale_back, Hnz.
Qed.

Lemma round_trip_witness :
  let origin :=
    toDisplay demoPainted (demoCrop.(drawn).(sx), demoCrop.(drawn).(sy)) in
  let extent :=
    toDisplay demoPainted (demoCrop.(drawn).(sw), demoCrop.(drawn).(sh)) in
  Qabs (fst origin - demoSel.(x)) <= 1
  /\ Qabs (snd origin - demoSel.(y)) <= 1
  /\ Qabs (fst extent - demoSel.(width)) <= 1
  /\ Qabs (snd extent - demoSel.(height)) <= 1.
Proof.
  apply (round_trip (state demoDragged) demoSel demoCrop "eng+ben"
                    demoPainted).
  - split; vm_compute; discriminate.
  - vm_compute; reflexivity.
  - vm_compute; reflexivity.
  - vm_compute; reflexivity.
Defined.

Lemma demoClicked_reachable : reachable demoClicked.
Proof. apply reachable_run, demoApp_reachable. Qed.

Lemma demoDragged_reachable : reachable demoDragged.
Proof. apply reachable_run, demoApp_reachable. Qed.

Lemma demoOdd_reachable : reachable demoOdd.
Proof. apply reachable_run, demoApp_reachable. Qed.

Lemma demoOutside_reachable : reachable demoOutside.
Proof. apply reachable_run, demoApp_reachable. Qed.

(** The scenario of the specification: a 1000 x 800 page at zoom 2 is
    shown on a 2000 x 1600 canvas; the drag from (100,100) to (300,250)
    selects {100, 100, 200, 150}; extraction crops the page at (50,50),
    size 100 x 75. *)
Example scenario_crop :
  let sel := selectionOf demoDragged in
  let shown := drawCurrentPage (state demoDragged) in
  let t := extractRegion sel (zoom (state demoDragged)) demoPage in
  option_map displayCanvas shown = Some (mkCanvas 2000 1600)
  /\ sel.(x) == 100 /\ sel.(y) == 100
  /\ sel.(width) == 200 /\ sel.(height) == 150
  /\ snd (dispatch ClickExtract demoDragged) = [ERecognize t "eng+ben"]
  /\ t.(drawn).(sx) == 50 /\ t.(drawn).(sy) == 50
  /\ t.(drawn).(sw) == 100 /\ t.(drawn).(sh) == 75
  /\ (t.(twidth), t.(theight)) = (100, 75)%Z.
Proof. repeat split; vm_compute; reflexivity. Qed.

(** C3, as stated, fails: after a click without movement the selection has
    zero width and height, the Extract button is enabled, and pressing it
    calls the recognition service and shows no notification. *)
Lemma recognition_on_empty_selection :
  let sel := selectionOf demoClicked in
  let effs := snd (dispatch ClickExtract demoClicked) in
  selection (state demoClicked) = Some sel
  /\ sel.(width) == 0 /\ sel.(height) == 0
  /\ existsb isRecognize effs = true
  /\ existsb isToast effs = false.
Proof. repeat split; vm_compute; reflexivity. Qed.

(** C3, amended. When no selection exists, or the current page does not
    exist, pressing Extract does not call the recognition service: the
    handler returns at once, shows no notification and changes nothing.
    (A selection that exists is not tested for zero width or height.) *)
Theorem extraction_guard (a : App) :
  reachable a ->
  selection (state a) = None
  \/ pageAt (pdfPages (state a)) (currentPage (state a)) = None ->
  dispatch ClickExtract a = (a, [])
  /\ existsb isRecognize (snd (dispatch ClickExtract a)) = false
  /\ existsb isToast (snd (dispatch ClickExtract a)) = false.
Proof.
  intros Hr Hnone.
  assert (E : dispatch ClickExtract a = (a, [])).
  { destruct Hnone as [Hsel|Hpage]; [now apply dispatch_extract_none|].
    pose proof (reachable_current a Hr) as Hc.
    unfold dispatch, handle.
    destruct (controlsRendered (state a) && hasSelection (state a)
              && negb (isProcessing (state a))).
    - rewrite performOCR_start_no_page
        by (rewrite (proj1 Hc); exact Hpage).
      cbv beta iota zeta. rewrite orb_false_r.
      replace (mkApp _ _ _ _ _ _ _) with a by now destruct a.
      now rewrite render_fixed.
    - now rewrite render_fixed. }
  rewrite E. repeat split; reflexivity.
Qed.

Lemma extraction_guard_witness :
  dispatch ClickExtract demoApp = (demoApp, [])
  /\ existsb isRecognize (snd (dispatch ClickExtract demoApp)) = false
  /\ existsb isToast (snd (dispatch ClickExtract demoApp)) = false.
Proof.
  apply (extraction_guard demoApp demoApp_reachable).
  left. vm_compute; reflexivity.
Defined.

(** C4, as stated, fails: a selection 3 pixels wide and high at zoom 2 has
    source width and height 1.5; the buffer is 1 x 1 pixels, while rounding
    1.5 gives 2. *)
Lemma crop_size_truncated :
  let sel := selectionOf demoOdd in
  let t := extractRegion sel (zoom (state demoOdd)) demoPage in
  snd (dispatch ClickExtract demoOdd) = [ERecognize t "eng+ben"]
  /\ 0 < sel.(width) /\ 0 < sel.(height)
  /\ t.(drawn).(sw) == 3 # 2 /\ t.(drawn).(sh) == 3 # 2
  /\ (t.(twidth), t.(theight)) = (1, 1)%Z
  /\ (JS.Math_round t.(drawn).(sw), JS.Math_round t.(drawn).(sh)) = (2, 2)%Z.
Proof. repeat split; vm_compute; reflexivity. Qed.

Lemma div_nonneg (v z : Q) : 0 <= v -> 0 < z -> 0 <= v / z.
Proof.
  intros Hv Hz. unfold Qdiv. apply Qmult_le_0_compat; [exact Hv|].
  apply Qlt_le_weak, Qinv_lt_0_compat, Hz.
Qed.

(** C4, amended. For a selection of positive width and height, the Region
    Extractor computes sourceX = x / zoom, sourceY = y / zoom,
    sourceWidth = width / zoom, sourceHeight = height / zoom and hands the
    recognition service a buffer of floor(sourceWidth) x floor(sourceHeight)
    pixels (the canvas size keeps the integer part, it does not round;
    sizes below 2^31), on which the page raster is drawn from offset
    (sourceX, sourceY), size sourceWidth x sourceHeight, to the origin at
    the same size. *)
Theorem crop_geometry (a : App) (sel : Selection) (page : PDFPage) :
  reachable a ->
  selection (state a) = Some sel ->
  pageAt (pdfPages (state a)) (currentPage (state a)) = Some page ->
  isProcessing (state a) = false ->
  0 < sel.(width) -> 0 < sel.(height) ->
  (Qfloor (sel.(width) / zoom (state a)) <= 2147483647)%Z ->
  (Qfloor (sel.(height) / zoom (state a)) <= 2147483647)%Z ->
  exists t,
    snd (dispatch ClickExtract a) = [ERecognize t (ocrLanguage (state a))]
    /\ t.(drawn).(sx) = sel.(x) / zoom (state a)
    /\ t.(drawn).(sy) = sel.(y) / zoom (state a)
    /\ t.(drawn).(sw) = sel.(width) / zoom (state a)
    /\ t.(drawn).(sh) = sel.(height) / zoom (state a)
    /\ t.(drawn).(image) = page.(canvas)
    /\ (t.(drawn).(dx), t.(drawn).(dy)) = (0, 0)
    /\ (t.(drawn).(dw), t.(drawn).(dh)) = (t.(drawn).(sw), t.(drawn).(sh))
    /\ t.(twidth) = Qfloor t.(drawn).(sw)
    /\ t.(theight) = Qfloor t.(drawn).(sh).
Proof.
  intros Hr Hsel Hpage Hproc Hw Hh Hbw Hbh.
  destruct (reachable_zoom a Hr) as [Hz _].
  exists (extractRegion sel (zoom (state a)) page).
  split; [exact (proj1 (dispatch_extract a sel page Hr Hsel Hpage Hproc))|].
  cbn [extractRegion drawn sx sy sw sh image dx dy dw dh twidth theight].
  repeat split; apply set_unsigned_long_floor; try assumption;
    apply div_nonneg; lra.
Qed.

Lemma crop_geometry_witness :
  exists t,
    snd (dispatch ClickExtract demoOdd)
    = [ERecognize t (ocrLanguage (state demoOdd))]
    /\ t.(drawn).(sx) = (selectionOf demoOdd).(x) / zoom (state demoOdd)
    /\ t.(drawn).(sy) = (selectionOf demoOdd).(y) / zoom (state demoOdd)
    /\ t.(drawn).(sw) = (selectionOf demoOdd).(width) / zoom (state demoOdd)
    /\ t.(drawn).(sh) = (selectionOf demoOdd).(height) / zoom (state demoOdd)
    /\ t.(drawn).(image) = demoPage.(canvas)
    /\ (t.(drawn).(dx), t.(drawn).(dy)) = (0, 0)
    /\ (t.(drawn).(dw), t.(drawn).(dh)) = (t.(drawn).(sw), t.(drawn).(sh))
    /\ t.(twidth) = Qfloor t.(drawn).(sw)
    /\ t.(theight) = Qfloor t.(drawn).(sh).
Proof.
  apply (crop_geometry demoOdd (selectionOf demoOdd) demoPage
                       demoOdd_reachable).
  - vm_compute; reflexivity.
  - vm_compute; reflexivity.
  - vm_compute; reflexivity.
  - vm_compute; reflexivity.
  - vm_compute; reflexivity.
  - vm_compute; discriminate.
  - vm_compute; discriminate.
Defined.

(** C5, as stated, fails: a selection drawn past the right and bottom
    edges of the display canvas gives a source rectangle that ends at
    (1050, 850) on a 1000 x 800 page; it is passed on as it is and the
    buffer is 100 x 100 pixels (a rectangle clamped to the page would be
    50 x 50). *)
Lemma crop_not_clamped :
  let t := extractRegion (selectionOf demoOutside)
                         (zoom (state demoOutside)) demoPage in
  snd (dispatch ClickExtract demoOutside) = [ERecognize t "eng+ben"]
  /\ (t.(drawn).(image).(cwidth), t.(drawn).(image).(cheight))
     = (1000, 800)%Z
  /\ t.(drawn).(sx) + t.(drawn).(sw) == 1050
  /\ t.(drawn).(sy) + t.(drawn).(sh) == 850
  /\ withinImage t.(drawn) = false
  /\ (t.(twidth), t.(theight)) = (100, 100)%Z.
Proof. repeat split; vm_compute; reflexivity. Qed.

(** C5, amended. The Region Extractor does not clamp: whatever the bounds
    of the page, the source rectangle it passes to the copy is the
    selection divided by the zoom factor and the buffer is sized from that
    rectangle, so neither depends on the page's width and height; the
    extraction does not fail on a rectangle that leaves the page: the
    recognition service is called and no error is reported. *)
Theorem extraction_unclamped (a : App) (sel : Selection) (page : PDFPage) :
  reachable a ->
  selection (state a) = Some sel ->
  pageAt (pdfPages (state a)) (currentPage (state a)) = Some page ->
  isProcessing (state a) = false ->
  let t := extractRegion sel (zoom (state a)) page in
  snd (dispatch ClickExtract a) = [ERecognize t (ocrLanguage (state a))]
  /\ pendingOCR (fst (dispatch ClickExtract a)) = true
  /\ (forall bounds : Canvas,
        let t' := extractRegion sel (zoom (state a))
                                (mkPage bounds page.(pageNumber)) in
        (t'.(drawn).(sx), t'.(drawn).(sy), t'.(drawn).(sw), t'.(drawn).(sh))
        = (t.(drawn).(sx), t.(drawn).(sy), t.(drawn).(sw), t.(drawn).(sh))
        /\ (t'.(twidth), t'.(theight)) = (t.(twidth), t.(theight))).
Proof.
  intros Hr Hsel Hpage Hproc t.
  destruct (dispatch_extract a sel page Hr Hsel Hpage Hproc) as (H1 & _ & H3).
  split; [exact H1|]. split; [exact H3|].
  intros bounds; split; reflexivity.
Qed.

Lemma extraction_unclamped_witness :
  let t := extractRegion (selectionOf demoOutside)
                         (zoom (state demoOutside)) demoPage in
  snd (dispatch ClickExtract demoOutside)
  = [ERecognize t (ocrLanguage (state demoOutside))].
Proof.
  refine (proj1 (extraction_unclamped demoOutside (selectionOf demoOutside)
                   demoPage demoOutside_reachable _ _ _)).
  - vm_compute; reflexivity.
  - vm_compute; reflexivity.
  - vm_compute; reflexivity.
Defined.

End RegionExtractor.

(* ------------------------------------------------------------------ *)
(** * Zoom changes between selection and extraction                    *)
(* ------------------------------------------------------------------ *)

Section StaleScale.

(** A zoom button writes the zoom factor and nothing else. *)
Lemma dispatch_zoom (ev : Event) (a : App) :
  isZoomEvent ev ->
  pdfPages (state a) <> [] ->
  state (fst (dispatch ev a))
  = setZoom (zoomAfter ev (zoom (state a))) (state a).
Proof.
  intros Hev Hne. unfold dispatch, handle, controlsRendered.
  destruct (pdfPages (state a)) eqn:E; [congruence|].
  destruct Hev as [-> | [-> | ->]]; reflexivity.
Qed.

Lemma run_zooms (zooms : list Event) (a : App) :
  Forall isZoomEvent zooms ->
  pdfPages (state a) <> [] ->
  let s := state a in
  let s' := state (fst (run zooms a)) in
  zoom s' = zoomsAfter zooms (zoom s)
  /\ selection s' = selection s
  /\ pdfPages s' = pdfPages s
  /\ currentPage s' = currentPage s
  /\ isProcessing s' = isProcessing s
  /\ ocrLanguage s' = ocrLanguage s.
Proof.
  intros Hz; revert a. induction Hz as [|ev zooms Hev _ IH]; intros a Hne.
  - cbn. repeat split; reflexivity.
  - cbn zeta. rewrite run_cons_fst.
    pose proof (dispatch_zoom ev a Hev Hne) as Hd.
    destruct (IH (fst (dispatch ev a))) as (H1 & H2 & H3 & H4 & H5 & H6).
    { now rewrite Hd. }
    rewrite H1, H2, H3, H4, H5, H6, Hd. repeat split; reflexivity.
Qed.

(** C6. When a selection exists and the zoom buttons are then pressed any
    number of times before Extract, the selection is kept as it was drawn
    and the Region Extractor divides its x, y, width and height by the zoom
    factor those presses left, the one current when Extract is pressed
    (the callback's dependency list holds [zoom], so its closure is never
    stale), not by the factor the selection was drawn at. *)
Theorem extraction_uses_current_zoom (a : App) (zooms : list Event)
        (sel : Selection) (page : PDFPage) :
  reachable a ->
  selection (state a) = Some sel ->
  pageAt (pdfPages (state a)) (currentPage (state a)) = Some page ->
  isProcessing (state a) = false ->
  Forall isZoomEvent zooms ->
  let drawnAt := zoom (state a) in
  let a' := fst (run zooms a) in
  let current := zoomsAfter zooms drawnAt in
  zoom (state a') = current
  /\ selection (state a') = Some sel
  /\ d_zoom (performOCR_closure a') = current
  /\ exists t lang,
       snd (dispatch ClickExtract a') = [ERecognize t lang]
       /\ t.(drawn).(sx) = sel.(x) / current
       /\ t.(drawn).(sy) = sel.(y) / current
       /\ t.(drawn).(sw) = sel.(width) / current
       /\ t.(drawn).(sh) = sel.(height) / current.
Proof.
  intros Hr Hsel Hpage Hproc Hz drawnAt a' current.
  pose proof (pageAt_nonempty _ _ _ Hpage) as Hne.
  destruct (run_zooms zooms a Hz Hne) as (H1 & H2 & H3 & H4 & H5 & H6).
  fold a' in H1, H2, H3, H4, H5, H6.
  assert (Hr' : reachable a') by now apply reachable_run.
  assert (Hsel' : selection (state a') = Some sel) by now rewrite H2.
  assert (Hpage' : pageAt (pdfPages (state a')) (currentPage (state a'))
                   = Some page) by now rewrite H3, H4.
  assert (Hproc' : isProcessing (state a') = false) by now rewrite H5.
  split; [exact H1|]. split; [exact Hsel'|]. split.
  { rewrite (proj1 (reachable_current a' Hr')). exact H1. }
  exists (extractRegion sel (zoom (state a')) page), (ocrLanguage (state a')).
  split; [exact (proj1 (dispatch_extract a' sel page Hr' Hsel' Hpage' Hproc'))|].
  rewrite H1. repeat split; reflexivity.
Qed.

Lemma extraction_uses_current_zoom_witness :
  let a' := fst (run [ClickZoomOut; ClickZoomOut] demoDragged) in
  let current :=
    zoomsAfter [ClickZoomOut; ClickZoomOut] (zoom (state demoDragged)) in
  zoom (state a') = current
  /\ selection (state a') = Some demoSel
  /\ d_zoom (performOCR_closure a') = current
  /\ exists t lang,
       snd (dispatch ClickExtract a') = [ERecognize t lang]
       /\ t.(drawn).(sx) = demoSel.(x) / current
       /\ t.(drawn).(sy) = demoSel.(y) / current
       /\ t.(drawn).(sw) = demoSel.(width) / current
       /\ t.(drawn).(sh) = demoSel.(height) / current.
Proof.
  apply (extraction_uses_current_zoom demoDragged
           [ClickZoomOut; ClickZoomOut] demoSel demoPage
           demoDragged_reachable).
  - vm_compute; reflexivity.
  - vm_compute; reflexivity.
  - vm_compute; reflexivity.
  - repeat constructor; unfold isZoomEvent; auto.
Defined.

End StaleScale.

(* ------------------------------------------------------------------ *)
(** * Upload                                                           *)
(* ------------------------------------------------------------------ *)

Section Upload.

(** A file that is neither an image nor a PDF is rejected with the
    "Invalid file" toast and the state is not touched. *)
Lemma upload_rejected (file : File) (s : State) :
  isImage file = false -> isPDF file = false ->
  handleFileUpload_start (Some file) s
  = (s, [EToast invalidFileToast], None).
Proof. intros Hi Hp. unfold handleFileUpload_start. now rewrite Hi, Hp. Qed.

(** Files of the three advertised types are accepted. *)
Lemma upload_accepts_advertised (file : File) (s : State) :
  advertisedType file = true ->
  exists u,
    handleFileUpload_start (Some file) s
    = (setIsProcessing true (setPdfFile (Some file) s), [], Some u).
Proof.
  unfold advertisedType, handleFileUpload_start, isImage, isPDF, JS.startsWith.
  rewrite !orb_true_iff, !String.eqb_eq. intros [[E|E]|E]; rewrite E; cbn;
    eexists; reflexivity.
Qed.

(** The scenario of the specification: a text file is rejected with the
    "Invalid file" toast and the session is what it was. *)
Example scenario_txt_rejected :
  run [FileChosen (Some (mkFile "notes.txt" "text/plain"))] demoDragged
  = (demoDragged, [EToast invalidFileToast]).
Proof. vm_compute; reflexivity. Qed.

(** C7 on the code: a GIF is not one of PDF, JPEG, PNG, yet the upload
    handler accepts it (every type that starts with "image/" passes the
    check): there is no error toast, the file is stored and, once the
    image has loaded, the page list is replaced. *)
Theorem gif_upload_accepted :
  advertisedType gifFile = false
  /\ handleFileUpload_start (Some gifFile) initialState
     = (setIsProcessing true (setPdfFile (Some gifFile) initialState), [],
        Some UImage)
  /\ (let session :=
        run [FileChosen (Some gifFile); ImageSettled (Some (64, 48)%Z)]
            demoDragged in
      pdfFile (state (fst session)) = Some gifFile
      /\ pdfPages (state (fst session)) = [mkPage (mkCanvas 64 48) 1]
      /\ pdfPages (state demoDragged) = [demoPage]
      /\ snd session = [EToast (mkToast "Image loaded successfully"
                                        "Ready for text extraction"
                                        VDefault)]).
Proof. repeat split; vm_compute; reflexivity. Qed.

(** C9, as stated, fails: when processing of an accepted file fails, the
    page list is kept but [pdfFile] has already been replaced, so the
    session shows the name of the failed file over the pages of the
    previous one. *)
Lemma failed_upload_replaces_file :
  let before := state demoDragged in
  let session :=
    run [FileChosen (Some brokenPdf); PdfSettled None] demoDragged in
  pdfPages (state (fst session)) = pdfPages before
  /\ pdfFile before = Some demoFile
  /\ pdfFile (state (fst session)) = Some brokenPdf
  /\ snd session = [EConsoleError "Error processing file:";
                    EToast processErrorToast].
Proof. repeat split; vm_compute; reflexivity. Qed.

Lemma accepted_start (file : File) (a : App) :
  isProcessing (state a) = false ->
  isImage file || isPDF file = true ->
  let a' := fst (dispatch (FileChosen (Some file)) a) in
  state a' = setIsProcessing true (setPdfFile (Some file) (state a))
  /\ pendingUpload a' = Some (if isImage file then UImage else UPdf)
  /\ pendingOCR a' = pendingOCR a.
Proof.
  intros Hproc Hacc. unfold dispatch, handle, handleFileUpload_start.
  rewrite Hproc.
  destruct (isImage file), (isPDF file); try discriminate;
    repeat split; reflexivity.
Qed.

Lemma upload_then (file : File) (ev : Event) (a : App) :
  fst (run [FileChosen (Some file); ev] a)
  = fst (dispatch ev (fst (dispatch (FileChosen (Some file)) a))).
Proof. rewrite run_cons_fst. apply (run_snoc_fst []). Qed.

Lemma extract_then (ev : Event) (a : App) :
  fst (run [ClickExtract; ev] a)
  = fst (dispatch ev (fst (dispatch ClickExtract a))).
Proof. rewrite run_cons_fst. apply (run_snoc_fst []). Qed.

Lemma processing_off (s : State) (f : option File) :
  isProcessing s = false ->
  setIsProcessing false (setIsProcessing true (setPdfFile f s))
  = setPdfFile f s.
Proof. intros H. destruct s; cbn in *. now subst. Qed.

Lemma processing_restored (s : State) :
  isProcessing s = false ->
  setIsProcessing false (setIsProcessing true s) = s.
Proof. intros H. destruct s; cbn in *. now subst. Qed.

Lemma processing_restored_text (s : State) (t : JS.Text) :
  isProcessing s = false ->
  setIsProcessing false (setExtractedText t (setIsProcessing true s))
  = setExtractedText t s.
Proof. intros H. destruct s; cbn in *. now subst. Qed.

(** C9, amended. From a state in which nothing is being processed:
    - when processing an accepted file fails (the image does not load, the
      PDF does not open or one of its pages does not render), the page
      list, the current page, the zoom, the selection and the extracted
      text are what they were; only [pdfFile], written before processing
      starts, is the new file;
    - when it succeeds, the page list is replaced as a whole and the
      current page is 0;
    - when the recognition call fails, the extracted text and the rest of
      the state are what they were;
    - when it succeeds, the extracted text is replaced by the trimmed
      result. *)
Theorem upload_and_recognition_outcomes (a : App) :
  reachable a ->
  isProcessing (state a) = false ->
  let s := state a in
  (forall file,
      isImage file = true ->
      state (fst (run [FileChosen (Some file); ImageSettled None] a))
      = setPdfFile (Some file) s
      /\ forall w h,
          state (fst (run [FileChosen (Some file);
                           ImageSettled (Some (w, h))] a))
          = setCurrentPage 0
              (setPdfPages
                 [mkPage (mkCanvas (JS.set_unsigned_long 300 (inject_Z w))
                                   (JS.set_unsigned_long 150 (inject_Z h)))
                         1]
                 (setPdfFile (Some file) s)))
  /\ (forall file doc,
        isImage file = false -> isPDF file = true ->
        let s' := state (fst (run [FileChosen (Some file); PdfSettled doc] a)) in
        (pdfOutcome doc = None -> s' = setPdfFile (Some file) s)
        /\ (forall pages, pdfOutcome doc = Some pages ->
              s' = setCurrentPage 0
                     (setPdfPages pages (setPdfFile (Some file) s))))
  /\ (forall sel page,
        selection s = Some sel ->
        pageAt (pdfPages s) (currentPage s) = Some page ->
        state (fst (run [ClickExtract; RecognitionSettled None] a)) = s
        /\ forall text,
            state (fst (run [ClickExtract; RecognitionSettled (Some text)] a))
            = setExtractedText (JS.trim text) s).
Proof.
  intros Hr Hproc s. split; [|split].
  - intros file Hi.
    destruct (accepted_start file a Hproc) as (Hs & Hp & _);
      [now rewrite Hi|]. rewrite Hi in Hp.
    split; [|intros w h]; rewrite upload_then; unfold dispatch at 1;
      unfold handle; rewrite Hp, Hs; cbn [handleFileUpload_image
        handleFileUpload_catch fst render state];
      fold s; now rewrite <- (processing_off s (Some file) Hproc).
  - intros file doc Hi Hp s'.
    destruct (accepted_start file a Hproc) as (Hs & Hpend & _);
      [now rewrite Hi, Hp|]. rewrite Hi in Hpend.
    assert (E : s' = fst (handleFileUpload_pdf doc
                  (setIsProcessing true (setPdfFile (Some file) s)))).
    { unfold s'. rewrite upload_then. unfold dispatch at 1. unfold handle.
      rewrite Hpend, Hs. fold s.
      now destruct (handleFileUpload_pdf doc _). }
    split.
    + intros Hnone. rewrite E. unfold handleFileUpload_pdf.
      destruct doc as [viewports|]; cbn in Hnone |- *;
        [rewrite Hnone|]; cbn; now rewrite <- (processing_off s (Some file) Hproc).
    + intros pages Hsome. rewrite E. unfold handleFileUpload_pdf.
      destruct doc as [viewports|]; cbn in Hsome; [|discriminate].
      rewrite Hsome. cbn. now rewrite <- (processing_off s (Some file) Hproc).
  - intros sel page Hsel Hpage.
    destruct (dispatch_extract a sel page Hr Hsel Hpage Hproc)
      as (_ & Hs & Hp).
    split; [|intros text]; rewrite extract_then; unfold dispatch at 1;
      unfold handle; rewrite Hp, Hs; cbn; fold s;
      [apply processing_restored | apply processing_restored_text];
      exact Hproc.
Qed.

Lemma upload_and_recognition_outcomes_witness :
  state (fst (run [ClickExtract; RecognitionSettled None] demoDragged))
  = state demoDragged
  /\ forall text,
      state (fst (run [ClickExtract; RecognitionSettled (Some text)]
                      demoDragged))
      = setExtractedText (JS.trim text) (state demoDragged).
Proof.
  refine (proj2 (proj2 (upload_and_recognition_outcomes demoDragged
                          demoDragged_reachable _)) demoSel demoPage _ _).
  - vm_compute; reflexivity.
  - vm_compute; reflexivity.
  - vm_compute; reflexivity.
Defined.

End Upload.

(* ------------------------------------------------------------------ *)
(** * Page navigation                                                  *)
(* ------------------------------------------------------------------ *)

Section Navigation.

Lemma fold_moves_pages (e : MouseEvt) (ls : list Drag) (s : State) :
  let s' := fold_left (fun s' d' => handleMouseMove d' e s') ls s in
  pdfPages s' = pdfPages s /\ currentPage s' = currentPage s.
Proof.
  revert s; induction ls as [|d ls IH]; intros s; [split; reflexivity|].
  cbn [fold_left]. destruct (IH (handleMouseMove d e s)) as [H1 H2].
  cbn zeta. now rewrite H1, H2.
Qed.

Lemma fold_ups_pages (ls : list Drag) (s : State) :
  let s' := fold_left (fun s' _ => handleMouseUp s') ls s in
  pdfPages s' = pdfPages s /\ currentPage s' = currentPage s.
Proof.
  revert s; induction ls as [|d ls IH]; intros s; [split; reflexivity|].
  cbn [fold_left]. destruct (IH (handleMouseUp s)) as [H1 H2].
  cbn zeta. now rewrite H1, H2.
Qed.

Lemma onPrevious_range (s : State) :
  pageIndexOK s -> pageIndexOK (onPrevious s).
Proof.
  unfold pageIndexOK, onPrevious, JS.Math_maxZ; cbn. intros H Hne.
  specialize (H Hne). lia.
Qed.

Lemma onNext_range (s : State) : pageIndexOK s -> pageIndexOK (onNext s).
Proof.
  unfold pageIndexOK, onNext, JS.Math_minZ; cbn. intros H Hne.
  specialize (H Hne). lia.
Qed.

(** A handler either keeps the page list and the index, or steps the
    index with Previous / Next, or installs a new list with index 0. *)
Lemma handle_pages (ev : Event) (a : App) :
  let s := state a in
  let s' := state (fst (handle ev a)) in
  (pdfPages s' = pdfPages s /\ currentPage s' = currentPage s)
  \/ s' = onPrevious s
  \/ s' = onNext s
  \/ currentPage s' = 0%Z.
Proof.
  destruct ev; unfold_handlers; cbn zeta;
    try (left; first [apply fold_moves_pages | apply fold_ups_pages]);
    repeat break_match; cbn; auto.
Qed.

Lemma pageIndexOK_zero (s : State) : currentPage s = 0%Z -> pageIndexOK s.
Proof.
  unfold pageIndexOK. intros -> Hne.
  destruct (pdfPages s); [congruence|]. cbn [List.length]. lia.
Qed.

Lemma reachable_pageIndexOK (a : App) : reachable a -> pageIndexOK (state a).
Proof.
  intros Ha. induction Ha as [|ev a _ IH] using reachable_ind.
  - now apply pageIndexOK_zero.
  - unfold dispatch. destruct (handle ev a) as [a' effs] eqn:E.
    cbn [fst]. rewrite render_state.
    pose proof (handle_pages ev a) as H. rewrite E in H. cbn [fst] in H.
    destruct H as [[H1 H2]|[H|[H|H]]].
    + unfold pageIndexOK in *. now rewrite H1, H2.
    + rewrite H. now apply onPrevious_range.
    + rewrite H. now apply onNext_range.
    + now apply pageIndexOK_zero.
Qed.

Lemma pageAt_in_range (pages : list PDFPage) (i : Z) :
  (0 <= i <= Z.of_nat (List.length pages) - 1)%Z ->
  exists page, pageAt pages i = Some page.
Proof.
  intros H. unfold pageAt.
  destruct (Z.ltb_spec i 0); [lia|].
  destruct (nth_error pages (Z.to_nat i)) as [page|] eqn:E; [now exists page|].
  apply nth_error_None in E. lia.
Qed.

(** C10. In every state the component can reach with a non-empty page
    list of length n, the current page index i is in [0, n-1] and
    [pdfPages[currentPage]] exists; Previous maps i to max(0, i-1), is
    disabled exactly at i = 0 and, enabled or not, would leave the index in
    range; Next maps i to min(n-1, i+1), is disabled exactly at i = n-1 and
    would leave the index in range; after either click the index is again
    in [0, n-1]. *)
Theorem page_index_in_range (a : App) :
  reachable a ->
  pdfPages (state a) <> [] ->
  let s := state a in
  let n := Z.of_nat (List.length (pdfPages s)) in
  let i := currentPage s in
  let inRange (j : Z) := (0 <= j <= n - 1)%Z in
  inRange i
  /\ (exists page, pageAt (pdfPages s) i = Some page)
  /\ currentPage (onPrevious s) = Z.max 0 (i - 1)
  /\ inRange (currentPage (onPrevious s))
  /\ (previousDisabled s = true <-> i = 0%Z)
  /\ currentPage (onNext s) = Z.min (n - 1) (i + 1)
  /\ inRange (currentPage (onNext s))
  /\ (nextDisabled s = true <-> i = (n - 1)%Z)
  /\ inRange (currentPage (state (fst (dispatch ClickPrevious a))))
  /\ inRange (currentPage (state (fst (dispatch ClickNext a)))).
Proof.
  intros Hr Hne s n i inRange.
  pose proof (reachable_pageIndexOK a Hr Hne) as Hi. fold s n i in Hi.
  assert (Hp : inRange (currentPage (onPrevious s))).
  { unfold inRange, onPrevious, JS.Math_maxZ; cbn. fold i. lia. }
  assert (Hn : inRange (currentPage (onNext s))).
  { unfold inRange, onNext, JS.Math_minZ; cbn. fold i n. lia. }
  split; [exact Hi|]. split; [now apply pageAt_in_range|].
  split; [reflexivity|]. split; [exact Hp|].
  split; [apply Z.eqb_eq|].
  split; [reflexivity|]. split; [exact Hn|].
  split; [apply Z.eqb_eq|].
  split.
  - unfold dispatch, handle. fold s.
    destruct (controlsRendered s && negb (previousDisabled s));
      cbn [fst render state withState]; assumption.
  - unfold dispatch, handle. fold s.
    destruct (controlsRendered s && negb (nextDisabled s));
      cbn [fst render state withState]; assumption.
Qed.

Lemma page_index_in_range_witness :
  let s := state demoDragged in
  (0 <= currentPage s <= Z.of_nat (List.length (pdfPages s)) - 1)%Z.
Proof.
  refine (proj1 (page_index_in_range demoDragged demoDragged_reachable _)).
  vm_compute; discriminate.
Defined.

End Navigation.

(* ------------------------------------------------------------------ *)
(** * The processing gate                                              *)
(* ------------------------------------------------------------------ *)

Section Gate.

Lemma fold_moves_frame (e : MouseEvt) (ls : list Drag) (s : State) :
  let s' := fold_left (fun s' d' => handleMouseMove d' e s') ls s in
  isProcessing s' = isProcessing s /\ pdfPages s' = pdfPages s
  /\ isSelecting s' = isSelecting s /\ extractedText s' = extractedText s
  /\ ocrLanguage s' = ocrLanguage s /\ pdfFile s' = pdfFile s.
Proof.
  revert s; induction ls as [|d ls IH]; intros s;
    [repeat split; reflexivity|].
  cbn [fold_left].
  destruct (IH (handleMouseMove d e s)) as (H1 & H2 & H3 & H4 & H5 & H6).
  cbn zeta. now rewrite H1, H2, H3, H4, H5, H6.
Qed.

Lemma fold_ups_frame (ls : list Drag) (s : State) :
  let s' := fold_left (fun s' _ => handleMouseUp s') ls s in
  isProcessing s' = isProcessing s /\ pdfPages s' = pdfPages s
  /\ selection s' = selection s /\ extractedText s' = extractedText s
  /\ ocrLanguage s' = ocrLanguage s /\ pdfFile s' = pdfFile s.
Proof.
  revert s; induction ls as [|d ls IH]; intros s;
    [repeat split; reflexivity|].
  cbn [fold_left].
  destruct (IH (handleMouseUp s)) as (H1 & H2 & H3 & H4 & H5 & H6).
  cbn zeta. now rewrite H1, H2, H3, H4, H5, H6.
Qed.

Lemma handle_gate (ev : Event) (a : App) :
  gateOK a -> gateOK (fst (handle ev a)).
Proof.
  intros (H1 & H2 & H3). unfold gateOK.
  destruct ev; unfold_handlers; cbn zeta;
    try (cbn;
         first [ destruct (fold_moves_frame e (listeners a) (state a))
                   as (-> & -> & _)
               | destruct (fold_ups_frame (listeners a) (state a))
                   as (-> & -> & _) ];
         now auto);
    unfold controlsRendered, hasSelection, textRendered;
    repeat break_match; cbn in *;
    repeat match goal with
           | H : (_, _) = (_, _) |- _ => injection H as <- <-
           | H : (_, _, _) = (_, _, _) |- _ => injection H as <- <- <-
           end;
    cbn in *;
    destruct (pendingUpload a) eqn:?; destruct (pendingOCR a) eqn:?;
    cbn in *; try discriminate;
    repeat split; auto; try congruence;
    try (destruct H2; congruence);
    try (exfalso; congruence);
    try (exfalso; rewrite H1 in *; discriminate);
    try (intros _;
         first [ now apply H3 | exfalso; now apply H3 | congruence
               | (specialize (H3 eq_refl); congruence) ]).
Qed.

Lemma reachable_gate (a : App) : reachable a -> gateOK a.
Proof.
  intros Ha. induction Ha as [|ev a _ IH] using reachable_ind.
  - repeat split; cbn; auto; discriminate.
  - unfold dispatch. pose proof (handle_gate ev a IH) as H.
    destruct (handle ev a) as [a' effs]. exact H.
Qed.

Lemma app_eta (a : App) :
  mkApp (state a) (listeners a) (pendingUpload a) (pendingOCR a)
        (pendingCopy a) (performOCR_closure a) (handleMouseDown_closure a)
  = a.
Proof. now destruct a. Qed.

(** X1. In every state the component can reach, the processing flag is up
    exactly while an upload or a recognition call is outstanding; an upload
    and a recognition call are never outstanding together; and while the
    flag is up, choosing a file and pressing Extract do nothing. *)
Theorem processing_gate (a : App) :
  reachable a ->
  (isProcessing (state a) = true
   <-> pendingUpload a <> None \/ pendingOCR a = true)
  /\ (pendingUpload a = None \/ pendingOCR a = false)
  /\ (isProcessing (state a) = true ->
      (forall files, dispatch (FileChosen files) a = (a, []))
      /\ dispatch ClickExtract a = (a, [])).
Proof.
  intros Hr. destruct (reachable_gate a Hr) as (H1 & H2 & _).
  split; [|split; [exact H2|]].
  - rewrite H1. destruct (pendingUpload a), (pendingOCR a); cbn;
      intuition congruence.
  - intros Hp. pose proof (reachable_current a Hr) as Hc. split.
    + intros files. unfold dispatch, handle. rewrite Hp.
      now rewrite render_fixed.
    + unfold dispatch, handle. rewrite Hp, andb_false_r.
      now rewrite render_fixed.
Qed.

Lemma demoExtracting_reachable : reachable demoExtracting.
Proof. apply reachable_dispatch, reachable_run, demoApp_reachable. Qed.

Lemma processing_gate_witness :
  dispatch ClickExtract demoExtracting = (demoExtracting, []).
Proof.
  refine (proj2 (proj2 (proj2 (processing_gate demoExtracting
                                 demoExtracting_reachable)) _)).
  vm_compute; reflexivity.
Defined.

(** X14. While a recognition call is outstanding the overlay reads
    "Extracting text..."; while an upload is outstanding it reads
    "Loading PDF..." only if no document is loaded yet and
    "Extracting text..." over a loaded document; otherwise there is no
    overlay. *)
Theorem overlay_message (a : App) :
  reachable a ->
  processingOverlay (state a)
  = match pendingUpload a, pendingOCR a with
    | Some _, _ =>
        Some (match pdfPages (state a) with
              | [] => "Loading PDF..."%string
              | _ :: _ => "Extracting text..."%string
              end)
    | None, true => Some "Extracting text..."%string
    | None, false => None
    end.
Proof.
  intros Hr. destruct (reachable_gate a Hr) as (H1 & _ & H3).
  unfold processingOverlay. rewrite H1.
  destruct (pendingUpload a), (pendingOCR a); cbn; try reflexivity.
  destruct (pdfPages (state a)); [now destruct H3|reflexivity].
Qed.

Lemma overlay_message_witness :
  processingOverlay (state demoExtracting)
  = match pendingUpload demoExtracting, pendingOCR demoExtracting with
    | Some _, _ =>
        Some (match pdfPages (state demoExtracting) with
              | [] => "Loading PDF..."%string
              | _ :: _ => "Extracting text..."%string
              end)
    | None, true => Some "Extracting text..."%string
    | None, false => None
    end.
Proof. exact (overlay_message demoExtracting demoExtracting_reachable). Defined.

End Gate.

(* ------------------------------------------------------------------ *)
(** * PDF pages and what is painted                                    *)
(* ------------------------------------------------------------------ *)

Section Pages.

Lemma renderPages_none (vs : list (option (Q * Q))) (i : Z)
      (acc : list PDFPage) :
  renderPages vs i acc = None <-> In None vs.
Proof.
  revert i acc; induction vs as [|[[vw vh]|] vs IH]; intros i acc; cbn.
  - split; [discriminate | tauto].
  - rewrite IH. split; [now right | intros [H|H]; [discriminate | exact H]].
  - split; [now left | reflexivity].
Qed.

Lemma renderPages_some (vs : list (option (Q * Q))) (i : Z)
      (acc pages : list PDFPage) :
  renderPages vs i acc = Some pages ->
  exists tail,
    pages = acc ++ tail
    /\ List.length tail = List.length vs
    /\ map pageNumber tail
       = map (fun k => (i + Z.of_nat k)%Z) (seq 0 (List.length vs))
    /\ forall k vw vh,
         nth_error vs k = Some (Some (vw, vh)) ->
         option_map canvas (nth_error tail k)
         = Some (mkCanvas (JS.set_unsigned_long 300 vw)
                          (JS.set_unsigned_long 150 vh)).
Proof.
  revert i acc; induction vs as [|[[vw vh]|] vs IH]; intros i acc; cbn.
  - intros [= <-]. exists []. rewrite app_nil_r.
    repeat split; try reflexivity. intros [|k] ? ?; discriminate.
  - intros H. destruct (IH _ _ H) as (tail & -> & Hlen & Hnum & Hcan).
    eexists (_ :: tail). rewrite <- app_assoc. split; [reflexivity|].
    split; [cbn; now rewrite Hlen|]. split.
    + cbn [map pageNumber]. rewrite Hnum, <- seq_shift, map_map.
      f_equal; [lia|]. apply map_ext. intros k. lia.
    + intros [|k] vw' vh'; cbn.
      * now intros [= <- <-].
      * apply Hcan.
  - discriminate.
Qed.

(** X2. The page loop of a PDF upload is all or nothing: it yields no page
    list exactly when some page fails to load or render; otherwise it
    yields one page per page of the document, in order, numbered 1, 2, ...,
    n, each with a canvas of the page's viewport size (as the canvas
    attributes keep it). *)
Theorem pdf_pages_all_or_nothing (vs : list (option (Q * Q))) :
  (renderPages vs 1 [] = None <-> In None vs)
  /\ forall pages,
       renderPages vs 1 [] = Some pages ->
       List.length pages = List.length vs
       /\ map pageNumber pages
          = map (fun k => Z.of_nat (S k)) (seq 0 (List.length vs))
       /\ forall k vw vh,
            nth_error vs k = Some (Some (vw, vh)) ->
            option_map canvas (nth_error pages k)
            = Some (mkCanvas (JS.set_unsigned_long 300 vw)
                             (JS.set_unsigned_long 150 vh)).
Proof.
  split; [apply renderPages_none|].
  intros pages H.
  destruct (renderPages_some _ _ _ _ H) as (tail & -> & Hlen & Hnum & Hcan).
  cbn [app]. split; [exact Hlen|]. split; [|exact Hcan].
  rewrite Hnum. apply map_ext. intros k. lia.
Qed.

Lemma set_unsigned_long_range (default : Z) (q : Q) :
  (0 <= default <= 2147483647)%Z ->
  (0 <= JS.set_unsigned_long default q <= 2147483647)%Z.
Proof.
  intros Hd. unfold JS.set_unsigned_long, JS.ToUint32.
  pose proof (Z.mod_pos_bound (JS.IntegerPart q) (2 ^ 32) eq_refl) as Hm.
  destruct (Z.leb_spec (JS.IntegerPart q mod 2 ^ 32) 2147483647); lia.
Qed.

Lemma renderPages_sizes (vs : list (option (Q * Q))) (i : Z)
      (acc pages : list PDFPage) :
  Forall (fun p => canvasSizeOK (canvas p)) acc ->
  renderPages vs i acc = Some pages ->
  Forall (fun p => canvasSizeOK (canvas p)) pages.
Proof.
  revert i acc; induction vs as [|[[vw vh]|] vs IH]; intros i acc Hacc; cbn.
  - now intros [= <-].
  - apply IH. apply Forall_app. split; [exact Hacc|].
    constructor; [|constructor].
    split; cbn; apply set_unsigned_long_range; lia.
  - discriminate.
Qed.

(** A handler keeps the page list or installs the one an upload made. *)
Lemma handle_page_list (ev : Event) (a : App) :
  let s' := state (fst (handle ev a)) in
  pdfPages s' = pdfPages (state a)
  \/ (exists w h,
        pdfPages s' = [mkPage (mkCanvas (JS.set_unsigned_long 300 w)
                                        (JS.set_unsigned_long 150 h)) 1])
  \/ (exists vs, renderPages vs 1 [] = Some (pdfPages s')).
Proof.
  destruct ev; unfold_handlers; cbn zeta;
    try (left; cbn;
         first [ apply (fold_moves_frame e (listeners a) (state a))
               | apply (fold_ups_frame (listeners a) (state a)) ]);
    repeat break_match; cbn; eauto.
Qed.

Lemma reachable_sizes (a : App) :
  reachable a -> Forall (fun p => canvasSizeOK (canvas p)) (pdfPages (state a)).
Proof.
  intros Ha. induction Ha as [|ev a _ IH] using reachable_ind.
  - constructor.
  - unfold dispatch. pose proof (handle_page_list ev a) as H.
    destruct (handle ev a) as [a' effs]. cbn [fst] in *. rewrite render_state.
    destruct H as [H|[(w & h & H)|(vs & H)]].
    + now rewrite H.
    + rewrite H. constructor; [|constructor].
      split; cbn; apply set_unsigned_long_range; lia.
    + now apply (renderPages_sizes vs 1 []).
Qed.

Lemma scaled_size (w : Z) (z : Q) :
  (0 <= w)%Z -> 0 < z -> 0 <= inject_Z w * z.
Proof.
  intros Hw Hz. apply Qmult_le_0_compat; [|lra].
  unfold Qle, inject_Z; cbn. lia.
Qed.

(** X9. In every state the component can reach with a non-empty page list,
    [drawCurrentPage] does paint: it draws the current page under the scale
    (zoom, zoom) and strokes the selection as it is stored, without scaling
    it; the display canvas is floor(width * zoom) by floor(height * zoom)
    pixels (for sizes below 2^31). *)
Theorem page_painted (a : App) :
  reachable a ->
  pdfPages (state a) <> [] ->
  let s := state a in
  exists page p,
    pageAt (pdfPages s) (currentPage s) = Some page
    /\ drawCurrentPage s = Some p
    /\ source p = page
    /\ scale p = (zoom s, zoom s)
    /\ overlay p = selection s
    /\ ((Qfloor (inject_Z page.(canvas).(cwidth) * zoom s) <= 2147483647)%Z ->
        p.(displayCanvas).(cwidth)
        = Qfloor (inject_Z page.(canvas).(cwidth) * zoom s))
    /\ ((Qfloor (inject_Z page.(canvas).(cheight) * zoom s) <= 2147483647)%Z ->
        p.(displayCanvas).(cheight)
        = Qfloor (inject_Z page.(canvas).(cheight) * zoom s)).
Proof.
  intros Hr Hne s.
  destruct (pageAt_in_range _ _ (reachable_pageIndexOK a Hr Hne))
    as [page Hpage].
  fold s in Hpage.
  assert (Hsize : canvasSizeOK (canvas page)).
  { pose proof (reachable_sizes a Hr) as Hall. fold s in Hall.
    rewrite Forall_forall in Hall. apply Hall.
    unfold pageAt in Hpage. destruct (currentPage s <? 0)%Z; [discriminate|].
    eapply nth_error_In, Hpage. }
  destruct (reachable_zoom a Hr) as [Hz _]. fold s in Hz.
  exists page. eexists. split; [exact Hpage|].
  unfold drawCurrentPage, canvasMounted. rewrite Hpage.
  destruct (pdfPages s) eqn:E; [now destruct Hne|]. cbn [negb].
  split; [reflexivity|]. cbn.
  destruct Hsize as [[Hw _] [Hh _]].
  repeat split; intros Hb; apply set_unsigned_long_floor; try exact Hb;
    apply scaled_size; (lia || lra).
Qed.

Lemma page_painted_witness :
  exists page p,
    pageAt (pdfPages (state demoDragged)) (currentPage (state demoDragged))
    = Some page
    /\ drawCurrentPage (state demoDragged) = Some p
    /\ source p = page
    /\ scale p = (zoom (state demoDragged), zoom (state demoDragged))
    /\ overlay p = selection (state demoDragged)
    /\ ((Qfloor (inject_Z page.(canvas).(cwidth) * zoom (state demoDragged))
         <= 2147483647)%Z ->
        p.(displayCanvas).(cwidth)
        = Qfloor (inject_Z page.(canvas).(cwidth) * zoom (state demoDragged)))
    /\ ((Qfloor (inject_Z page.(canvas).(cheight) * zoom (state demoDragged))
         <= 2147483647)%Z ->
        p.(displayCanvas).(cheight)
        = Qfloor (inject_Z page.(canvas).(cheight)
                  * zoom (state demoDragged))).
Proof.
  apply (page_painted demoDragged demoDragged_reachable).
  vm_compute; discriminate.
Defined.

End Pages.

(* ------------------------------------------------------------------ *)
(** * Zoom levels and page steps                                       *)
(* ------------------------------------------------------------------ *)

Section Steps.

Lemma grid_range (z : Q) (k : Z) : z == k # 4 -> (2 <= k <= 12)%Z ->
  (1 # 2) <= z /\ z <= 3.
Proof.
  intros E Hk. rewrite E. unfold Qle; cbn -[Z.mul Z.add Z.sub]; lia.
Qed.

Lemma grid_minus (z : Q) (k : Z) : z == k # 4 -> z - (1 # 4) == (k - 1) # 4.
Proof. intros E. rewrite E. unfold Qeq; cbn -[Z.mul Z.add Z.sub]; lia. Qed.

Lemma grid_plus (z : Q) (k : Z) : z == k # 4 -> z + (1 # 4) == (k + 1) # 4.
Proof. intros E. rewrite E. unfold Qeq; cbn -[Z.mul Z.add Z.sub]; lia. Qed.

Lemma grid_le (j k : Z) : (j <= k)%Z -> j # 4 <= k # 4.
Proof. unfold Qle; cbn -[Z.mul Z.add Z.sub]; lia. Qed.

Lemma onZoomOut_grid (s : State) :
  onZoomGrid (zoom s) -> onZoomGrid (zoom (onZoomOut s)).
Proof.
  intros (k & Hk & E). cbn [onZoomOut zoom setZoom JS.Math_max].
  pose proof (grid_minus _ _ E) as Em.
  destruct (Z.eq_dec k 2) as [->|Hne].
  - exists 2%Z. split; [lia|].
    rewrite Q.max_l; [reflexivity|]. rewrite Em. unfold Qle; cbn -[Z.mul Z.add Z.sub]; lia.
  - exists (k - 1)%Z. split; [lia|].
    rewrite Q.max_r; [exact Em|]. rewrite Em. unfold Qle; cbn -[Z.mul Z.add Z.sub]; lia.
Qed.

Lemma onZoomIn_grid (s : State) :
  onZoomGrid (zoom s) -> onZoomGrid (zoom (onZoomIn s)).
Proof.
  intros (k & Hk & E). cbn [onZoomIn zoom setZoom JS.Math_min].
  pose proof (grid_plus _ _ E) as Ep.
  destruct (Z.eq_dec k 12) as [->|Hne].
  - exists 12%Z. split; [lia|].
    rewrite Q.min_l; [reflexivity|]. rewrite Ep. unfold Qle; cbn -[Z.mul Z.add Z.sub]; lia.
  - exists (k + 1)%Z. split; [lia|].
    rewrite Q.min_r; [exact Ep|]. rewrite Ep. unfold Qle; cbn -[Z.mul Z.add Z.sub]; lia.
Qed.

Lemma reachable_grid (a : App) : reachable a -> onZoomGrid (zoom (state a)).
Proof.
  intros Ha. induction Ha as [|ev a _ IH] using reachable_ind.
  - exists 4%Z. split; [lia | reflexivity].
  - unfold dispatch. destruct (handle ev a) as [a' effs] eqn:E.
    cbn [fst]. rewrite render_state.
    pose proof (handle_zoom ev a) as H. rewrite E in H. cbn [fst] in H.
    destruct H as [H|[H|[H|H]]]; rewrite H;
      auto using onZoomOut_grid, onZoomIn_grid.
    exists 4%Z. split; [lia | reflexivity].
Qed.

Lemma round_quarter (z : Q) (k : Z) :
  z == k # 4 -> JS.Math_round (z * 100) = (25 * k)%Z.
Proof.
  intros E. unfold JS.Math_round.
  assert (H : z * 100 + (1 # 2) == (50 * k + 1) # 2).
  { rewrite E. unfold Qeq; cbn -[Z.mul Z.add Z.sub]; lia. }
  rewrite (Qfloor_comp _ _ H). cbn -[Z.mul Z.add Z.div].
  symmetry. apply (Z.div_unique _ _ _ 1); lia.
Qed.

(** X3. In every state the component can reach the zoom factor is one of
    the eleven levels 0.5, 0.75, ..., 3 (k/4 for an integer k from 2 to
    12), and the zoom label shows exactly 100 times it: 25 k percent, with
    nothing lost to rounding. *)
Theorem zoom_levels (a : App) :
  reachable a ->
  exists k : Z,
    (2 <= k <= 12)%Z
    /\ zoom (state a) == k # 4
    /\ zoomLabel (state a) = (25 * k)%Z.
Proof.
  intros Hr. destruct (reachable_grid a Hr) as (k & Hk & E).
  exists k. split; [exact Hk|]. split; [exact E|].
  now apply round_quarter.
Qed.

Lemma zoom_levels_witness :
  exists k : Z,
    (2 <= k <= 12)%Z
    /\ zoom (state demoDragged) == k # 4
    /\ zoomLabel (state demoDragged) = (25 * k)%Z.
Proof. exact (zoom_levels demoDragged demoDragged_reachable). Defined.

Lemma zoom_of_run (zooms : list Event) (a : App) :
  Forall isZoomEvent zooms ->
  pdfPages (state a) <> [] ->
  zoom (state (fst (run zooms a))) = zoomsAfter zooms (zoom (state a)).
Proof. intros Hz Hne. exact (proj1 (run_zooms zooms a Hz Hne)). Qed.

(** X4. With a document loaded, zooming in and then out, or out and then
    in, gives back the zoom factor one started from, except at the ends of
    the range: at 3 zooming in, and at 0.5 zooming out, leave the factor
    where it is. *)
Theorem zoom_steps_inverse (a : App) :
  reachable a ->
  pdfPages (state a) <> [] ->
  let z := zoom (state a) in
  let after (evs : list Event) := zoom (state (fst (run evs a))) in
  (z < 3 -> after [ClickZoomIn; ClickZoomOut] == z)
  /\ ((1 # 2) < z -> after [ClickZoomOut; ClickZoomIn] == z)
  /\ (z == 3 -> after [ClickZoomIn] == 3)
  /\ (z == 1 # 2 -> after [ClickZoomOut] == 1 # 2).
Proof.
  intros Hr Hne z after.
  destruct (reachable_grid a Hr) as (k & Hk & E). fold z in E.
  assert (Hrun : forall evs, Forall isZoomEvent evs ->
                             after evs = zoomsAfter evs z).
  { intros evs Hev. now apply zoom_of_run. }
  repeat split; intros H; rewrite Hrun
    by (repeat constructor; unfold isZoomEvent; auto);
    cbn [zoomsAfter fold_left zoomAfter].
  - assert (Hk' : (k <= 11)%Z).
    { rewrite E in H. unfold Qlt in H; cbn -[Z.mul Z.add Z.sub] in H; lia. }
    rewrite Q.min_r by (rewrite E; unfold Qle; cbn -[Z.mul Z.add Z.sub]; lia).
    rewrite Q.max_r by (rewrite E; unfold Qle; cbn -[Z.mul Z.add Z.sub]; lia).
    ring.
  - assert (Hk' : (3 <= k)%Z).
    { rewrite E in H. unfold Qlt in H; cbn -[Z.mul Z.add Z.sub] in H; lia. }
    rewrite Q.max_r by (rewrite E; unfold Qle; cbn -[Z.mul Z.add Z.sub]; lia).
    rewrite Q.min_r by (rewrite E; unfold Qle; cbn -[Z.mul Z.add Z.sub]; lia).
    ring.
  - rewrite Q.min_l by (rewrite H; unfold Qle; cbn -[Z.mul Z.add Z.sub]; lia). reflexivity.
  - rewrite Q.max_l by (rewrite H; unfold Qle; cbn -[Z.mul Z.add Z.sub]; lia). reflexivity.
Qed.

Lemma zoom_steps_inverse_witness :
  zoom (state (fst (run [ClickZoomIn; ClickZoomOut] demoDragged)))
  == zoom (state demoDragged).
Proof.
  refine (proj1 (zoom_steps_inverse demoDragged demoDragged_reachable _) _).
  - vm_compute; discriminate.
  - vm_compute; reflexivity.
Defined.

Lemma run_two (ev1 ev2 : Event) (a : App) :
  fst (run [ev1; ev2] a) = fst (dispatch ev2 (fst (dispatch ev1 a))).
Proof. rewrite run_cons_fst. apply (run_snoc_fst []). Qed.

Lemma dispatch_next (a : App) :
  pdfPages (state a) <> [] ->
  nextDisabled (state a) = false ->
  state (fst (dispatch ClickNext a)) = onNext (state a).
Proof.
  intros Hne Hd. unfold dispatch, handle, controlsRendered. rewrite Hd.
  destruct (pdfPages (state a)); [now destruct Hne | reflexivity].
Qed.

Lemma dispatch_previous (a : App) :
  pdfPages (state a) <> [] ->
  previousDisabled (state a) = false ->
  state (fst (dispatch ClickPrevious a)) = onPrevious (state a).
Proof.
  intros Hne Hd. unfold dispatch, handle, controlsRendered. rewrite Hd.
  destruct (pdfPages (state a)); [now destruct Hne | reflexivity].
Qed.

(** X12. With a document loaded, Next followed by Previous comes back to
    the page one was on unless that was the last page, and Previous
    followed by Next comes back unless it was the first; on the last page
    Next, and on the first page Previous, change nothing at all. *)
Theorem page_steps_inverse (a : App) :
  reachable a ->
  pdfPages (state a) <> [] ->
  let s := state a in
  let n := Z.of_nat (List.length (pdfPages s)) in
  let i := currentPage s in
  let after (evs : list Event) := currentPage (state (fst (run evs a))) in
  ((i < n - 1)%Z -> after [ClickNext; ClickPrevious] = i)
  /\ ((0 < i)%Z -> after [ClickPrevious; ClickNext] = i)
  /\ (i = (n - 1)%Z -> dispatch ClickNext a = (a, []))
  /\ (i = 0%Z -> dispatch ClickPrevious a = (a, [])).
Proof.
  intros Hr Hne s n i after.
  pose proof (reachable_pageIndexOK a Hr Hne) as Hi. fold s n i in Hi.
  pose proof (reachable_current a Hr) as Hc.
  repeat split; intros H.
  - unfold after. rewrite run_two.
    assert (Hd : nextDisabled s = false).
    { unfold nextDisabled. fold i n. apply Z.eqb_neq. lia. }
    pose proof (dispatch_next a Hne Hd) as E1.
    rewrite dispatch_previous; rewrite E1.
    + cbn. unfold JS.Math_maxZ, JS.Math_minZ, i, n, s in *. lia.
    + exact Hne.
    + unfold previousDisabled. cbn. apply Z.eqb_neq.
      unfold JS.Math_minZ, i, n, s in *. lia.
  - unfold after. rewrite run_two.
    assert (Hd : previousDisabled s = false).
    { unfold previousDisabled. fold i. apply Z.eqb_neq. lia. }
    pose proof (dispatch_previous a Hne Hd) as E1.
    rewrite dispatch_next; rewrite E1.
    + cbn. unfold JS.Math_maxZ, JS.Math_minZ, i, n, s in *. lia.
    + exact Hne.
    + unfold nextDisabled. cbn. apply Z.eqb_neq.
      unfold JS.Math_maxZ, i, n, s in *. lia.
  - unfold dispatch, handle, nextDisabled. fold s i n.
    rewrite (proj2 (Z.eqb_eq i (n - 1)) H), andb_false_r.
    now rewrite render_fixed.
  - unfold dispatch, handle, previousDisabled. fold s i.
    rewrite (proj2 (Z.eqb_eq i 0) H), andb_false_r.
    now rewrite render_fixed.
Qed.

Lemma demoPdfApp_reachable : reachable demoPdfApp.
Proof. apply reachable_run, reachable_initial. Qed.

Lemma page_steps_inverse_witness :
  currentPage (state (fst (run [ClickNext; ClickPrevious] demoPdfApp)))
  = currentPage (state demoPdfApp).
Proof.
  refine (proj1 (page_steps_inverse demoPdfApp demoPdfApp_reachable _) _).
  - vm_compute; discriminate.
  - vm_compute; reflexivity.
Defined.

(** X13. The recognition call carries the language selected last: choosing
    a language and then pressing Extract recognises the crop of the current
    selection with that language. *)
Theorem extraction_uses_selected_language (a : App) (lang : string)
        (sel : Selection) (page : PDFPage) :
  reachable a ->
  selection (state a) = Some sel ->
  pageAt (pdfPages (state a)) (currentPage (state a)) = Some page ->
  isProcessing (state a) = false ->
  snd (run [SelectLanguage lang; ClickExtract] a)
  = [ERecognize (extractRegion sel (zoom (state a)) page) lang].
Proof.
  intros Hr Hsel Hpage Hproc.
  pose proof (pageAt_nonempty _ _ _ Hpage) as Hne.
  assert (Hs : state (fst (dispatch (SelectLanguage lang) a))
               = setOcrLanguage lang (state a)).
  { unfold dispatch, handle, controlsRendered.
    destruct (pdfPages (state a)); [now destruct Hne | reflexivity]. }
  assert (He : snd (dispatch (SelectLanguage lang) a) = []).
  { unfold dispatch, handle. now destruct (controlsRendered (state a)). }
  pose proof (reachable_dispatch (SelectLanguage lang) a Hr) as Hr'.
  destruct (dispatch_extract (fst (dispatch (SelectLanguage lang) a))
              sel page Hr') as (H1 & _); try (rewrite Hs; assumption).
  cbn [run]. destruct (dispatch (SelectLanguage lang) a) as [a1 e1].
  cbn [fst snd] in *. destruct (dispatch ClickExtract a1) as [a2 e2].
  cbn [fst snd] in *. subst e1 e2. rewrite Hs. reflexivity.
Qed.

Lemma extraction_uses_selected_language_witness :
  snd (run [SelectLanguage "ben"; ClickExtract] demoDragged)
  = [ERecognize (extractRegion demoSel (zoom (state demoDragged)) demoPage)
                "ben"].
Proof.
  apply (extraction_uses_selected_language demoDragged "ben" demoSel demoPage
           demoDragged_reachable).
  - vm_compute; reflexivity.
  - vm_compute; reflexivity.
  - vm_compute; reflexivity.
Defined.

End Steps.

(* ------------------------------------------------------------------ *)
(** * The selection over a session                                     *)
(* ------------------------------------------------------------------ *)

Section SelectionLife.

Lemma handle_selection_kept (ev : Event) (a : App) :
  writesSelection ev = false ->
  selection (state (fst (handle ev a))) = selection (state a).
Proof.
  destruct ev; try discriminate; intros _; unfold_handlers; cbn zeta;
    try (cbn; apply (fold_ups_frame (listeners a) (state a)));
    repeat break_match; reflexivity.
Qed.

(** X5. The selection is written by a mouse press, a drag move and Clear
    Selection only: it survives, unchanged, any sequence of other events -
    page steps, zoom changes, a change of language, an upload and its
    outcome, an extraction and its outcome, edits and copies of the text. *)
Theorem selection_survives (evs : list Event) (a : App) :
  forallb (fun ev => negb (writesSelection ev)) evs = true ->
  selection (state (fst (run evs a))) = selection (state a).
Proof.
  revert a; induction evs as [|ev evs IH]; intros a H; [reflexivity|].
  cbn [forallb] in H. apply andb_true_iff in H as [Hev Hevs].
  rewrite run_cons_fst, IH by exact Hevs.
  unfold dispatch.
  pose proof (handle_selection_kept ev a) as Hk.
  destruct (handle ev a) as [a' effs]. cbn [fst] in *. rewrite render_state.
  apply Hk. now destruct (writesSelection ev).
Qed.

Lemma selection_survives_witness :
  selection (state (fst (run [ClickZoomOut; ClickNext;
                              FileChosen (Some gifFile);
                              ImageSettled (Some (64, 48)%Z);
                              ClickExtract; RecognitionSettled None]
                             demoDragged)))
  = selection (state demoDragged).
Proof.
  apply (selection_survives
           [ClickZoomOut; ClickNext; FileChosen (Some gifFile);
            ImageSettled (Some (64, 48)%Z); ClickExtract;
            RecognitionSettled None] demoDragged).
  vm_compute; reflexivity.
Defined.

Lemma idle_down (e : MouseEvt) (a : App) :
  reachable a ->
  isSelecting (state a) = false ->
  dispatch (MouseDown e) a = (a, []).
Proof.
  intros Hr Hs. pose proof (reachable_current a Hr) as Hc.
  assert (E : handleMouseDown (handleMouseDown_closure a) e (state a)
              = (state a, [])).
  { unfold handleMouseDown. now rewrite (proj2 Hc), Hs. }
  unfold dispatch, handle. rewrite E.
  destruct (canvasMounted (state a)); cbn [negb]; cbv beta iota zeta;
    rewrite ?app_nil_r, ?app_eta; now rewrite render_fixed.
Qed.

Lemma idle_move (e : MouseEvt) (a : App) :
  reachable a ->
  listeners a = [] ->
  dispatch (MouseMove e) a = (a, []).
Proof.
  intros Hr Hl. pose proof (reachable_current a Hr) as Hc.
  unfold dispatch, handle, withState. rewrite Hl. cbn [fold_left].
  rewrite <- Hl, app_eta. now rewrite render_fixed.
Qed.

Lemma idle_up (a : App) :
  reachable a ->
  listeners a = [] ->
  dispatch MouseUp a = (a, []).
Proof.
  intros Hr Hl. pose proof (reachable_current a Hr) as Hc.
  unfold dispatch, handle. rewrite Hl. cbn [fold_left].
  rewrite <- Hl, app_eta. now rewrite render_fixed.
Qed.

(** X6. Outside selecting mode, with no drag in progress, the mouse does
    nothing: a press on the canvas, a move and a release leave the whole
    component as it was and perform no effect. *)
Theorem idle_mouse_ignored (a : App) (e : MouseEvt) :
  reachable a ->
  isSelecting (state a) = false ->
  listeners a = [] ->
  dispatch (MouseDown e) a = (a, [])
  /\ dispatch (MouseMove e) a = (a, [])
  /\ dispatch MouseUp a = (a, []).
Proof.
  intros Hr Hs Hl.
  split; [|split]; auto using idle_down, idle_move, idle_up.
Qed.

Lemma idle_mouse_ignored_witness :
  dispatch (MouseDown (demoMouse 10 10)) demoDragged = (demoDragged, [])
  /\ dispatch (MouseMove (demoMouse 10 10)) demoDragged = (demoDragged, [])
  /\ dispatch MouseUp demoDragged = (demoDragged, []).
Proof.
  apply (idle_mouse_ignored demoDragged (demoMouse 10 10)
                            demoDragged_reachable).
  - vm_compute; reflexivity.
  - vm_compute; reflexivity.
Defined.

Lemma run_moves_listeners (moves : list MouseEvt) (a : App) :
  listeners (fst (run (map MouseMove moves) a)) = listeners a.
Proof.
  revert a; induction moves as [|m moves IH]; intros a; [reflexivity|].
  cbn [map]. rewrite run_cons_fst, IH.
  exact (proj1 (dispatch_move m a)).
Qed.

Lemma fold_ups_selecting (ls : list Drag) (s : State) :
  isSelecting (fold_left (fun s' _ => handleMouseUp s') ls s)
  = match ls with [] => isSelecting s | _ :: _ => false end.
Proof.
  revert s; induction ls as [|d ls IH]; intros s; [reflexivity|].
  cbn [fold_left]. rewrite IH. now destruct ls.
Qed.

Lemma dispatch_up_selecting (a : App) :
  isSelecting (state (fst (dispatch MouseUp a)))
  = match listeners a with [] => isSelecting (state a) | _ :: _ => false end.
Proof. cbn. apply fold_ups_selecting. Qed.

(** X7. A drag uses selecting mode up: after press, any moves and release,
    selecting mode is off and the drag's listeners are gone, so a further
    press or move on the canvas does nothing until Select Text is pressed
    again. *)
Theorem drag_ends_selecting (a : App) (down : MouseEvt)
        (moves : list MouseEvt) :
  reachable a ->
  isSelecting (state a) = true ->
  pdfPages (state a) <> [] ->
  let a' :=
    fst (run (MouseDown down :: map MouseMove moves ++ [MouseUp]) a) in
  isSelecting (state a') = false
  /\ listeners a' = []
  /\ (forall e, dispatch (MouseDown e) a' = (a', [])
                /\ dispatch (MouseMove e) a' = (a', [])).
Proof.
  intros Hr Hsel Hne a'.
  assert (Hc : handleMouseDown_closure a = true).
  { rewrite (proj2 (reachable_current a Hr)). exact Hsel. }
  assert (Hm : canvasMounted (state a) = true).
  { unfold canvasMounted. destruct (pdfPages (state a)); congruence. }
  destruct (dispatch_down down a Hc Hm) as [Hl _].
  assert (Hls : listeners (fst (run (MouseDown down :: map MouseMove moves) a))
                = listeners a ++ [mkDrag (canvasX down) (canvasY down)]).
  { now rewrite run_cons_fst, run_moves_listeners. }
  assert (Ha' : a' = fst (dispatch MouseUp
                  (fst (run (MouseDown down :: map MouseMove moves) a)))).
  { unfold a'. now rewrite app_comm_cons, run_snoc_fst. }
  assert (H1 : isSelecting (state a') = false).
  { rewrite Ha', dispatch_up_selecting, Hls.
    now destruct (listeners a). }
  assert (H2 : listeners a' = []) by now rewrite Ha'.
  assert (Hr' : reachable a') by now apply reachable_run.
  split; [exact H1|]. split; [exact H2|].
  intros e. split; [now apply idle_down | now apply idle_move].
Qed.

Lemma drag_ends_selecting_witness :
  isSelecting (state demoDragged) = false /\ listeners demoDragged = [].
Proof.
  destruct (drag_ends_selecting demoApp (demoMouse 100 100)
              [demoMouse 300 250] demoApp_reachable) as (H1 & H2 & _).
  - vm_compute; reflexivity.
  - vm_compute; discriminate.
  - exact (conj H1 H2).
Defined.










End SelectionLife.

(* ------------------------------------------------------------------ *)
(** * The extracted text                                               *)
(* ------------------------------------------------------------------ *)

Section ExtractedText.

Lemma trimStart_split (t : JS.Text) :
  exists lead,
    t = lead ++ JS.trimStart t
    /\ forallb JS.isWhiteSpace lead = true
    /\ match JS.trimStart t with
       | c :: _ => JS.isWhiteSpace c = false
       | [] => True
       end.
Proof.
  induction t as [|c t (lead & E & Hl & Hh)].
  - exists []. repeat split.
  - cbn [JS.trimStart]. destruct (JS.isWhiteSpace c) eqn:Hc.
    + exists (c :: lead). cbn [forallb app]. rewrite Hc, Hl.
      split; [now rewrite <- E|]. split; [reflexivity | exact Hh].
    + exists []. cbn. repeat split; assumption.
Qed.

Lemma trimEnd_split (t : JS.Text) :
  exists trail,
    t = JS.trimEnd t ++ trail
    /\ forallb JS.isWhiteSpace trail = true
    /\ forall front c, JS.trimEnd t = front ++ [c] ->
                       JS.isWhiteSpace c = false.
Proof.
  unfold JS.trimEnd.
  destruct (trimStart_split (rev t)) as (lead & E & Hl & Hh).
  exists (rev lead). split; [|split].
  - rewrite <- rev_app_distr, <- E. now rewrite rev_involutive.
  - rewrite forallb_forall in *. intros c Hc. apply Hl.
    now apply in_rev in Hc.
  - intros front c Hf. apply (f_equal (@rev N)) in Hf.
    rewrite rev_involutive, rev_app_distr in Hf. cbn in Hf.
    now rewrite Hf in Hh.
Qed.

Lemma trim_split (t : JS.Text) :
  exists lead trail,
    t = lead ++ JS.trim t ++ trail
    /\ forallb JS.isWhiteSpace lead = true
    /\ forallb JS.isWhiteSpace trail = true
    /\ (forall c rest, JS.trim t = c :: rest -> JS.isWhiteSpace c = false)
    /\ (forall front c, JS.trim t = front ++ [c] ->
                        JS.isWhiteSpace c = false).
Proof.
  unfold JS.trim.
  destruct (trimStart_split t) as (lead & E1 & Hl & Hh).
  destruct (trimEnd_split (JS.trimStart t)) as (trail & E2 & Ht & Hlast).
  exists lead, trail. split; [now rewrite <- E2|].
  split; [exact Hl|]. split; [exact Ht|]. split; [|exact Hlast].
  intros c rest Hc. rewrite Hc in E2. rewrite E2 in Hh. exact Hh.
Qed.

(** X10. When a recognition call succeeds, the extracted text is the
    recognised text without the white space around it: the recognised text
    is white space, then the extracted text, then white space, and the
    extracted text neither starts nor ends with a white-space character;
    if nothing is left, the Extracted Text card is not shown. *)
Theorem recognized_text_trimmed (a : App) (text : JS.Text) :
  pendingOCR a = true ->
  let s' := state (fst (dispatch (RecognitionSettled (Some text)) a)) in
  exists lead trail,
    text = lead ++ extractedText s' ++ trail
    /\ forallb JS.isWhiteSpace lead = true
    /\ forallb JS.isWhiteSpace trail = true
    /\ (forall c rest, extractedText s' = c :: rest ->
                       JS.isWhiteSpace c = false)
    /\ (forall front c, extractedText s' = front ++ [c] ->
                        JS.isWhiteSpace c = false)
    /\ (extractedText s' = [] -> textRendered s' = false).
Proof.
  intros Hp s'.
  assert (E : extractedText s' = JS.trim text).
  { unfold s', dispatch, handle. now rewrite Hp. }
  destruct (trim_split text) as (lead & trail & H1 & H2 & H3 & H4 & H5).
  exists lead, trail. rewrite E.
  repeat split; try assumption.
  intros Hnil. unfold textRendered. rewrite E, Hnil. reflexivity.
Qed.

Lemma recognized_text_trimmed_witness :
  let s' := state (fst (dispatch (RecognitionSettled (Some demoText))
                                 demoExtracting)) in
  exists lead trail,
    demoText = lead ++ extractedText s' ++ trail
    /\ forallb JS.isWhiteSpace lead = true
    /\ forallb JS.isWhiteSpace trail = true
    /\ (forall c rest, extractedText s' = c :: rest ->
                       JS.isWhiteSpace c = false)
    /\ (forall front c, extractedText s' = front ++ [c] ->
                        JS.isWhiteSpace c = false)
    /\ (extractedText s' = [] -> textRendered s' = false).
Proof.
  apply (recognized_text_trimmed demoExtracting demoText).
  vm_compute; reflexivity.
Defined.

Lemma handle_clipboard (ev : Event) (a : App) (t : JS.Text) :
  In (EClipboardWrite t) (snd (handle ev a)) ->
  t = extractedText (state a) /\ exists c rest, t = c :: rest.
Proof.
  destruct ev; unfold_handlers; cbn zeta;
    repeat break_match; cbn;
    repeat match goal with
           | H : (_, _) = (_, _) |- _ => injection H as <- <-
           | H : (_, _, _) = (_, _, _) |- _ => injection H as <- <- <-
           end;
    cbn; intros H;
    repeat match goal with
           | H : _ \/ _ |- _ => destruct H
           | H : False |- _ => destruct H
           | H : _ = EClipboardWrite _ |- _ => inversion H; clear H
           end;
    subst; try discriminate; eauto.
  all: unfold copyToClipboard_settled in *; destruct ok; cbn in *;
    intuition discriminate.
Qed.

(** X11. The clipboard is only ever written with a non-empty text: in any
    run of the component, from any state, every [clipboard.writeText] call
    carries at least one character. *)
Theorem clipboard_never_empty (evs : list Event) (a : App) (t : JS.Text) :
  In (EClipboardWrite t) (snd (run evs a)) ->
  exists c rest, t = c :: rest.
Proof.
  revert a; induction evs as [|ev evs IH]; intros a; cbn [run].
  - intros [].
  - unfold dispatch. destruct (handle ev a) as [a1 e1] eqn:E1.
    destruct (run evs (render a1)) as [a2 e2] eqn:E2. cbn [snd].
    rewrite in_app_iff. intros [H|H].
    + apply (handle_clipboard ev a). now rewrite E1.
    + apply (IH (render a1)). now rewrite E2.
Qed.

Lemma clipboard_never_empty_witness :
  exists c rest, JS.trim demoText = c :: rest.
Proof.
  apply (clipboard_never_empty demoCopyEvents initialApp (JS.trim demoText)).
  vm_compute. do 3 right. left. reflexivity.
Defined.

End ExtractedText.

(* ------------------------------------------------------------------ *)
(** * Recognition calls over a session                                 *)
(* ------------------------------------------------------------------ *)

Section Recognition.

Lemma handle_keeps_ocr (ev : Event) (a : App) :
  pendingOCR a = true ->
  isRecognitionSettled ev = false ->
  pendingOCR (fst (handle ev a)) = true.
Proof.
  intros Hp. destruct ev; try discriminate; intros _;
    unfold_handlers; cbn zeta; repeat break_match; cbn; rewrite ?Hp; auto.
Qed.

Lemma run_keeps_ocr (evs : list Event) (a : App) :
  pendingOCR a = true ->
  forallb (fun ev => negb (isRecognitionSettled ev)) evs = true ->
  pendingOCR (fst (run evs a)) = true.
Proof.
  revert a; induction evs as [|ev evs IH]; intros a Hp H; [exact Hp|].
  cbn [forallb] in H. apply andb_true_iff in H as [Hev Hevs].
  rewrite run_cons_fst. apply IH; [|exact Hevs].
  unfold dispatch. pose proof (handle_keeps_ocr ev a Hp) as Hk.
  destruct (handle ev a) as [a' effs]. cbn [fst] in *.
  apply Hk. now destruct (isRecognitionSettled ev).
Qed.

(** X16. A recognition call is never cancelled: whatever happens while it
    is outstanding - a new drag, Clear Selection, page steps, zoom - the
    call stays outstanding and the processing flag stays up, and when it
    resolves the extracted text becomes its trimmed result and the flag
    goes down. *)
Theorem recognition_not_cancelled (a : App) (evs : list Event)
        (text : JS.Text) :
  reachable a ->
  pendingOCR a = true ->
  forallb (fun ev => negb (isRecognitionSettled ev)) evs = true ->
  let a' := fst (run evs a) in
  let done := state (fst (dispatch (RecognitionSettled (Some text)) a')) in
  pendingOCR a' = true
  /\ isProcessing (state a') = true
  /\ extractedText done = JS.trim text
  /\ isProcessing done = false.
Proof.
  intros Hr Hp Hevs a' done.
  pose proof (run_keeps_ocr evs a Hp Hevs) as Hp'. fold a' in Hp'.
  assert (Hr' : reachable a') by now apply reachable_run.
  destruct (reachable_gate a' Hr') as (H1 & _ & _).
  split; [exact Hp'|]. split.
  { rewrite H1, Hp'. apply orb_true_r. }
  unfold done, dispatch, handle. rewrite Hp'. split; reflexivity.
Qed.

Lemma recognition_not_cancelled_witness :
  let a' :=
    fst (run [ClickSelectText; MouseDown (demoMouse 5 5);
              MouseMove (demoMouse 50 60); MouseUp; ClickZoomOut]
             demoExtracting) in
  let done :=
    state (fst (dispatch (RecognitionSettled (Some demoText)) a')) in
  pendingOCR a' = true
  /\ isProcessing (state a') = true
  /\ extractedText done = JS.trim demoText
  /\ isProcessing done = false.
Proof.
  apply (recognition_not_cancelled demoExtracting
           [ClickSelectText; MouseDown (demoMouse 5 5);
            MouseMove (demoMouse 50 60); MouseUp; ClickZoomOut]
           demoText demoExtracting_reachable).
  - vm_compute; reflexivity.
  - vm_compute; reflexivity.
Defined.






End Recognition.
